(** * AlphaOptions: the decision core (models, risk, strategies)

    A shallow embedding of [alphaoptions/models.py], [alphaoptions/risk.py]
    and [alphaoptions/strategies.py], and the properties of the risk engine
    and of the strategy engine that are stated about them.

    Conventions of the embedding.
    - [Decimal] and [float] values are exact rationals ([Q]).  The rounding
      of the 28-digit decimal context and of binary64 is outside the model;
      [Decimal(str(p / 100))] is the rational [p / 100].
    - Python [int] is [Z]; [int(d)] on a Decimal truncates toward zero.
    - [Optional[T]] is [option T]; a raised exception is the [Raised]
      outcome.
    - An f-string is kept as its list of fragments (literal text and the
      interpolated values), not rendered.
    - [datetime.now()] is an input: a [Clock] gives the successive readings.
    - The iteration order of a Python [set] is an input as well. *)

From Stdlib Require Import QArith Qround Qabs ZArith List String Bool Lia Lqa.
Import ListNotations.
Local Open Scope Q_scope.

(** ** Numbers *)

Definition Decimal := Q.
Definition float := Q.

Definition Qlt_bool (x y : Q) : bool := negb (Qle_bool y x).

(** [max(a, b)] on Decimals: [b] only when it is strictly greater. *)
Definition Decimal_max (a b : Decimal) : Decimal :=
  if Qlt_bool a b then b else a.

(** [Decimal(str(p / 100))] *)
Definition pct_fraction (p : float) : Decimal := p / 100.

(** [int(d)]: truncation toward zero. *)
Definition int_of_Decimal (d : Decimal) : Z :=
  Z.quot (Qnum d) (Zpos (Qden d)).

(** [d] in a boolean context: a Decimal is falsy exactly when it is zero. *)
Definition Decimal_truthy (d : Decimal) : bool := negb (Qeq_bool d 0).

(** [==] on [Optional[Decimal]] and [Optional[float]]: numeric equality,
    [None] equal to [None] alone. *)
Definition option_Decimal_eqb (a b : option Decimal) : bool :=
  match a, b with
  | Some x, Some y => Qeq_bool x y
  | None, None => true
  | _, _ => false
  end.

(** ** f-strings and exceptions *)

Inductive fragment : Type :=
| Lit (s : string)
| FmtDecimal (d : Decimal)
| FmtInt (z : Z)
| FmtStr (s : string).

Definition fstring := list fragment.

Inductive exn : Type :=
| ValueError (msg : string)
| DivisionByZero.

Inductive outcome (A : Type) : Type :=
| Returned (a : A)
| Raised (e : exn).
Arguments Returned {A} a.
Arguments Raised {A} e.

(** ** Dates and times *)

Record time : Type := mk_time
  { hour : nat; minute : nat; second : nat; microsecond : nat }.

Definition date := Z.

Record datetime : Type := mk_datetime
  { dt_date : date; dt_time : time }.

(** [t1 < t2] on [datetime.time]: lexicographic on the four fields. *)
Definition time_ltb (t1 t2 : time) : bool :=
  match Nat.compare (hour t1) (hour t2) with
  | Lt => true
  | Gt => false
  | Eq =>
    match Nat.compare (minute t1) (minute t2) with
    | Lt => true
    | Gt => false
    | Eq =>
      match Nat.compare (second t1) (second t2) with
      | Lt => true
      | Gt => false
      | Eq => Nat.ltb (microsecond t1) (microsecond t2)
      end
    end
  end.

(** [t1 <= t2] on [datetime.time]. *)
Definition time_leb (t1 t2 : time) : bool := negb (time_ltb t2 t1).

(** [==] on times and on naive datetimes: field by field. *)
Definition time_eqb (t1 t2 : time) : bool :=
  Nat.eqb (hour t1) (hour t2) && Nat.eqb (minute t1) (minute t2)
  && Nat.eqb (second t1) (second t2)
  && Nat.eqb (microsecond t1) (microsecond t2).

Definition datetime_eqb (d1 d2 : datetime) : bool :=
  Z.eqb (dt_date d1) (dt_date d2) && time_eqb (dt_time d1) (dt_time d2).

(** The ranges that the [datetime.time] constructor enforces. *)
Definition valid_time (t : time) : bool :=
  Nat.ltb (hour t) 24 && Nat.ltb (minute t) 60 && Nat.ltb (second t) 60
  && (Z.of_nat (microsecond t) <? 1000000)%Z.

(** Microseconds since midnight. *)
Definition microseconds_of_day (t : time) : Z :=
  ((Z.of_nat (hour t) * 3600 + Z.of_nat (minute t) * 60 + Z.of_nat (second t))
   * 1000000 + Z.of_nat (microsecond t))%Z.

(** The successive readings of [datetime.now()]. *)
Definition Clock := nat -> datetime.

(** ** models.py *)

Inductive OptionType : Type := CALL | PUT.
Inductive OrderSide : Type := BUY | SELL.
Inductive StrategyType : Type :=
| LONG_CALL | LONG_PUT | STRADDLE | STRANGLE | VERTICAL_SPREAD.

(** [side.value] *)
Definition OrderSide_value (side : OrderSide) : string :=
  match side with
  | BUY => "buy"
  | SELL => "sell"
  end.

Definition OptionType_eqb (a b : OptionType) : bool :=
  match a, b with
  | CALL, CALL | PUT, PUT => true
  | _, _ => false
  end.

Definition OrderSide_eqb (a b : OrderSide) : bool :=
  match a, b with
  | BUY, BUY | SELL, SELL => true
  | _, _ => false
  end.

Module OptionContract.

Record t : Type := mk
  { symbol : string;
    underlying : string;
    option_type : OptionType;
    strike : Decimal;
    expiration : date;
    bid : option Decimal;
    ask : option Decimal;
    last_price : option Decimal;
    volume : Z;
    open_interest : Z;
    implied_volatility : option float;
    delta : option float;
    gamma : option float;
    theta : option float;
    vega : option float }.

Definition mid_price (self : t) : option Decimal :=
  match bid self, ask self with
  | Some b, Some a => Some ((b + a) / 2)
  | _, _ => last_price self
  end.


Definition is_0dte (self : t) (check_date : date) : bool :=
  Z.eqb (expiration self) check_date.

Definition validate (self : t) : bool :=
  if String.eqb (symbol self) "" || String.eqb (underlying self) "" then false
  else if Qle_bool (strike self) 0 then false
  else
    match bid self, ask self with
    | Some b, Some a =>
      if Qlt_bool b 0 || Qlt_bool a 0 then false
      else if Qlt_bool a b then false
      else true
    | _, _ => true
    end.

(** The dataclass [__eq__]: the tuples of fields compared. *)
Definition eqb (a b : t) : bool :=
  String.eqb (symbol a) (symbol b)
  && String.eqb (underlying a) (underlying b)
  && OptionType_eqb (option_type a) (option_type b)
  && Qeq_bool (strike a) (strike b)
  && Z.eqb (expiration a) (expiration b)
  && option_Decimal_eqb (bid a) (bid b)
  && option_Decimal_eqb (ask a) (ask b)
  && option_Decimal_eqb (last_price a) (last_price b)
  && Z.eqb (volume a) (volume b)
  && Z.eqb (open_interest a) (open_interest b)
  && option_Decimal_eqb (implied_volatility a) (implied_volatility b)
  && option_Decimal_eqb (delta a) (delta b)
  && option_Decimal_eqb (gamma a) (gamma b)
  && option_Decimal_eqb (theta a) (theta b)
  && option_Decimal_eqb (vega a) (vega b).

End OptionContract.

Module Position.

Record t : Type := mk
  { contract : OptionContract.t;
    quantity : Z;
    entry_price : Decimal;
    entry_time : datetime;
    side : OrderSide }.

Definition is_long (self : t) : bool := OrderSide_eqb (side self) BUY.

Definition notional_value (self : t) : Decimal :=
  entry_price self * inject_Z (quantity self) * 100.

Definition unrealized_pnl (self : t) (current_price : Decimal) : Decimal :=
  let price_diff := current_price - entry_price self in
  let price_diff := if negb (is_long self) then - price_diff else price_diff in
  price_diff * inject_Z (quantity self) * 100.

(** The dataclass [__eq__]. *)
Definition eqb (a b : t) : bool :=
  OptionContract.eqb (contract a) (contract b)
  && Z.eqb (quantity a) (quantity b)
  && Qeq_bool (entry_price a) (entry_price b)
  && datetime_eqb (entry_time a) (entry_time b)
  && OrderSide_eqb (side a) (side b).

End Position.

Module Order.

Record t : Type := mk
  { contract : OptionContract.t;
    side : OrderSide;
    quantity : Z;
    order_type : string;
    limit_price : option Decimal;
    time_in_force : string;
    order_id : option string;
    status : string;
    filled_quantity : Z;
    filled_price : option Decimal;
    created_at : datetime }.

(** The dataclass constructor as [create_orders] calls it: the fields not
    passed take their defaults, [created_at] takes a clock reading. *)
Definition new (contract : OptionContract.t) (side : OrderSide)
    (quantity : Z) (limit_price : option Decimal) (now : datetime) : t :=
  mk contract side quantity "limit" limit_price "day" None "new" 0 None now.

Definition validate (self : t) : bool :=
  if (quantity self <=? 0)%Z then false
  else if String.eqb (order_type self) "limit"
          && match limit_price self with None => true | Some _ => false end
  then false
  else if match limit_price self with
          | Some p => Qle_bool p 0
          | None => false
          end
  then false
  else true.

End Order.

Module TradeResult.

Record t : Type := mk
  { strategy_type : StrategyType;
    entry_time : datetime;
    exit_time : datetime;
    entry_price : Decimal;
    exit_price : Decimal;
    quantity : Z;
    pnl : Decimal;
    commission : Decimal }.

Definition net_pnl (self : t) : Decimal := pnl self - commission self.


End TradeResult.

(** ** risk.py *)

Module RiskLimits.

Record t : Type := mk
  { max_portfolio_risk_pct : float;
    max_position_size : Z;
    max_daily_loss_pct : float;
    max_single_trade_risk_pct : float;
    min_buying_power_reserve_pct : float;
    max_concentration_pct : float }.

Definition default : t := mk 5 10 2 1 20 25.

End RiskLimits.

Module PositionSizer.

Record t : Type := mk
  { account_value : Decimal;
    risk_per_trade_pct : float;
    max_contracts : Z }.



End PositionSizer.

(** The methods of [RiskManager] run on the manager object: a state monad
    over the manager's fields. *)
Module St.

Definition M (S A : Type) : Type := S -> A * S.

Definition ret {S A} (a : A) : M S A := fun s => (a, s).
Definition bind {S A B} (m : M S A) (k : A -> M S B) : M S B :=
  fun s => let (a, s') := m s in k a s'.
Definition gets {S A} (f : S -> A) : M S A := fun s => (f s, s).
Definition modify {S} (f : S -> S) : M S unit := fun s => (tt, f s).

Definition eval {S A} (m : M S A) (s : S) : A := fst (m s).
Definition exec {S A} (m : M S A) (s : S) : S := snd (m s).

End St.

Declare Scope st_scope.
Delimit Scope st_scope with st.
Notation "x <- m ;; k" := (St.bind m (fun x => k))
  (at level 61, m at next level, right associativity) : st_scope.

Module RiskManager.

Record t : Type := mk
  { account_value : Decimal;
    limits : RiskLimits.t;
    daily_pnl : Decimal;
    open_positions : list Position.t }.

Definition M := St.M t.

(** [RiskManager(account_value, limits)] *)
Definition init (account_value : Decimal) (limits : option RiskLimits.t) : t :=
  mk account_value
     (match limits with Some l => l | None => RiskLimits.default end)
     0 [].

Local Open Scope st_scope.

Definition portfolio_risk : M Decimal :=
  positions <- St.gets open_positions ;;
  St.ret (fold_left
            (fun total_risk position =>
               if Position.is_long position
               then total_risk + Position.notional_value position
               else total_risk)
            positions 0).

Definition portfolio_risk_pct : M float :=
  account_value <- St.gets account_value ;;
  if Qle_bool account_value 0 then St.ret 0
  else
    risk <- portfolio_risk ;;
    St.ret (risk / account_value * 100).

Definition available_risk_budget : M Decimal :=
  account_value <- St.gets account_value ;;
  limits <- St.gets limits ;;
  let max_risk :=
    account_value * pct_fraction (RiskLimits.max_portfolio_risk_pct limits) in
  risk <- portfolio_risk ;;
  St.ret (Decimal_max 0 (max_risk - risk)).

Definition daily_loss_msg : fstring := [Lit "Daily loss limit reached"].
Definition portfolio_risk_msg : fstring := [Lit "Portfolio risk limit reached"].
Definition trade_risk_msg (trade_risk max_trade_risk : Decimal) : fstring :=
  [Lit "Trade risk $"; FmtDecimal trade_risk;
   Lit " exceeds limit $"; FmtDecimal max_trade_risk].
Definition position_size_msg (quantity : Z) : fstring :=
  [Lit "Position size "; FmtInt quantity; Lit " exceeds limit"].
Definition concentration_msg (underlying : string) : fstring :=
  [Lit "Concentration limit reached for "; FmtStr underlying].
Definition approved_msg : fstring := [Lit "Trade approved"].

Definition can_take_trade (order : Order.t) : M (bool * fstring) :=
  account_value <- St.gets account_value ;;
  limits <- St.gets limits ;;
  let daily_loss_limit :=
    account_value * pct_fraction (RiskLimits.max_daily_loss_pct limits) in
  daily_pnl <- St.gets daily_pnl ;;
  if Qlt_bool daily_pnl (- daily_loss_limit)
  then St.ret (false, daily_loss_msg)
  else
    risk_pct <- portfolio_risk_pct ;;
    if Qle_bool (RiskLimits.max_portfolio_risk_pct limits) risk_pct
    then St.ret (false, portfolio_risk_msg)
    else
      let trade_risk_check :=
        match Order.limit_price order with
        | Some limit_price =>
          let trade_risk := limit_price * inject_Z (Order.quantity order) * 100 in
          let max_trade_risk :=
            account_value
            * pct_fraction (RiskLimits.max_single_trade_risk_pct limits) in
          if Qlt_bool max_trade_risk trade_risk
          then Some (false, trade_risk_msg trade_risk max_trade_risk)
          else None
        | None => None
        end in
      match trade_risk_check with
      | Some rejection => St.ret rejection
      | None =>
        if (RiskLimits.max_position_size limits <? Order.quantity order)%Z
        then St.ret (false, position_size_msg (Order.quantity order))
        else
          let underlying := OptionContract.underlying (Order.contract order) in
          positions <- St.gets open_positions ;;
          let underlying_exposure :=
            fold_left Qplus
              (map Position.notional_value
                 (filter
                    (fun p =>
                       String.eqb
                         (OptionContract.underlying (Position.contract p))
                         underlying)
                    positions))
              0 in
          let max_concentration :=
            account_value
            * pct_fraction (RiskLimits.max_concentration_pct limits) in
          match Order.limit_price order with
          | Some limit_price =>
            let new_exposure :=
              underlying_exposure
              + limit_price * inject_Z (Order.quantity order) * 100 in
            if Qlt_bool max_concentration new_exposure
            then St.ret (false, concentration_msg underlying)
            else St.ret (true, approved_msg)
          | None => St.ret (true, approved_msg)
          end
      end.

Definition update_daily_pnl (pnl : Decimal) : M unit :=
  St.modify (fun s =>
    mk (account_value s) (limits s) (daily_pnl s + pnl) (open_positions s)).


Definition add_position (position : Position.t) : M unit :=
  St.modify (fun s =>
    mk (account_value s) (limits s) (daily_pnl s)
       (open_positions s ++ [position])).

(** [list.remove(x)]: the first item equal to [x] goes. *)
Fixpoint remove_first (position : Position.t) (positions : list Position.t)
  : list Position.t :=
  match positions with
  | [] => []
  | p :: positions' =>
    if Position.eqb p position then positions'
    else p :: remove_first position positions'
  end.

Definition remove_position (position : Position.t) : M unit :=
  St.modify (fun s =>
    if existsb (fun p => Position.eqb p position) (open_positions s)
    then mk (account_value s) (limits s) (daily_pnl s)
            (remove_first position (open_positions s))
    else s).

Definition calculate_max_loss : M Decimal :=
  positions <- St.gets open_positions ;;
  St.ret (fold_left
            (fun max_loss position =>
               if Position.is_long position
               then max_loss + Position.notional_value position
               else max_loss)
            positions 0).

Module Summary.
Record t : Type := mk
  { account_value : float;
    portfolio_risk : float;
    portfolio_risk_pct : float;
    daily_pnl : float;
    available_risk_budget : float;
    max_possible_loss : float;
    open_positions_count : nat }.
End Summary.

Definition get_risk_summary : M Summary.t :=
  account_value <- St.gets account_value ;;
  risk <- portfolio_risk ;;
  risk_pct <- portfolio_risk_pct ;;
  daily_pnl <- St.gets daily_pnl ;;
  budget <- available_risk_budget ;;
  max_loss <- calculate_max_loss ;;
  positions <- St.gets open_positions ;;
  St.ret (Summary.mk account_value risk risk_pct daily_pnl budget max_loss
            (List.length positions)).

End RiskManager.

(** ** Python built-ins used by strategies.py *)

(** [min(x :: l, key=key)]: the first element with the smallest key. *)
Fixpoint min_from {A : Type} (key : A -> Q) (best : A) (l : list A) : A :=
  match l with
  | [] => best
  | x :: l' => min_from key (if Qlt_bool (key x) (key best) then x else best) l'
  end.

(** [max(x :: l, key=key)]: the first element with the largest key. *)
Fixpoint max_from {A : Type} (key : A -> Q) (best : A) (l : list A) : A :=
  match l with
  | [] => best
  | x :: l' => max_from key (if Qlt_bool (key best) (key x) then x else best) l'
  end.

(** [sorted(l, key=key)]: a stable sort. *)
Fixpoint insert_sorted {A : Type} (key : A -> Q) (x : A) (l : list A) : list A :=
  match l with
  | [] => [x]
  | y :: l' =>
    if Qlt_bool (key y) (key x) then y :: insert_sorted key x l'
    else x :: y :: l'
  end.

Definition sorted {A : Type} (key : A -> Q) (l : list A) : list A :=
  fold_right (insert_sorted key) [] l.

(** [zip(a, b, c)] *)
Fixpoint zip3 {A B C : Type} (a : list A) (b : list B) (c : list C)
  : list (A * B * C) :=
  match a, b, c with
  | x :: a', y :: b', z :: c' => (x, y, z) :: zip3 a' b' c'
  | _, _, _ => []
  end.

(** ** strategies.py *)

Definition ALPACA_0DTE_CUTOFF : time := mk_time 15 15 0 0.

Module StrategySignal.

Record t : Type := mk
  { strategy_type : StrategyType;
    contracts : list OptionContract.t;
    sides : list OrderSide;
    quantities : list Z;
    confidence : float;
    reason : fstring;
    timestamp : datetime }.

Definition validate (self : t) : bool :=
  match contracts self with
  | [] => false
  | _ :: _ =>
    (* a != b != c  is  (a != b) and (b != c) *)
    if negb (Nat.eqb (List.length (contracts self)) (List.length (sides self)))
       && negb (Nat.eqb (List.length (sides self)) (List.length (quantities self)))
    then false
    else if negb (Qle_bool 0 (confidence self) && Qle_bool (confidence self) 1)
    then false
    else true
  end.

End StrategySignal.

Module BaseStrategy.

Record t : Type := mk
  { max_position_size : Z;
    min_confidence : float;
    respect_cutoff : bool }.

Definition default : t := mk 10 (6 # 10) true.

(** [current_time or datetime.now()] *)
Definition or_now (current_time : option datetime) (now : datetime) : datetime :=
  match current_time with
  | Some t => t
  | None => now
  end.

Definition is_within_trading_hours (self : t)
    (current_time : option datetime) (now : datetime) : bool :=
  let check_time := or_now current_time now in
  if respect_cutoff self
  then time_ltb (dt_time check_time) ALPACA_0DTE_CUTOFF
  else true.

(** The loop of [create_orders]; [n] counts the clock readings taken by
    the orders built so far. *)
Fixpoint build_orders (self : t) (clock : Clock) (n : nat)
    (legs : list (OptionContract.t * OrderSide * Z)) : list Order.t :=
  match legs with
  | [] => []
  | (contract, side, qty) :: legs' =>
    Order.new contract side (Z.min qty (max_position_size self))
              (OptionContract.mid_price contract) (clock n)
    :: build_orders self clock (S n) legs'
  end.

Definition create_orders (self : t) (clock : Clock) (signal : StrategySignal.t)
  : outcome (list Order.t) :=
  if negb (StrategySignal.validate signal)
  then Raised (ValueError "Invalid signal")
  else
    Returned
      (build_orders self clock 0
         (zip3 (StrategySignal.contracts signal)
               (StrategySignal.sides signal)
               (StrategySignal.quantities signal))).

Definition filter_0dte_contracts (contracts : list OptionContract.t)
    (check_date : date) : list OptionContract.t :=
  filter (fun c => OptionContract.is_0dte c check_date) contracts.

End BaseStrategy.

(** The delta scan shared by the long-call and long-put strategies, on the
    pair [(best_contract, best_delta_diff)], with [None] for the initial
    [float('inf')]. *)
Definition delta_step (target_delta : float)
    (st : option OptionContract.t * option float) (contract : OptionContract.t)
  : option OptionContract.t * option float :=
  match OptionContract.delta contract with
  | Some d =>
    let delta_diff := Qabs (d - target_delta) in
    match snd st with
    | None => (Some contract, Some delta_diff)
    | Some best_delta_diff =>
      if Qlt_bool delta_diff best_delta_diff
      then (Some contract, Some delta_diff)
      else st
    end
  | None => st
  end.

Definition delta_scan (target_delta : float) (contracts : list OptionContract.t)
  : option OptionContract.t * option float :=
  fold_left (delta_step target_delta) contracts (None, None).

(** Selection with the at-the-money fallback. *)
Definition select_by_delta (target_delta : float) (underlying_price : Decimal)
    (contracts : list OptionContract.t) : option OptionContract.t :=
  match fst (delta_scan target_delta contracts) with
  | Some best => Some best
  | None =>
    hd_error
      (sorted (fun c => Qabs (OptionContract.strike c - underlying_price))
              contracts)
  end.

Module LongCallStrategy.

Record t : Type := mk
  { base : BaseStrategy.t;
    target_delta : float;
    max_premium_pct : float }.

Definition default : t := mk BaseStrategy.default (1 # 2) 2.

Definition strategy_type : StrategyType := LONG_CALL.

Definition generate_signal (self : t) (clock : Clock)
    (underlying_price : Decimal) (available_contracts : list OptionContract.t)
    (current_time : option datetime) : outcome (option StrategySignal.t) :=
  if negb (BaseStrategy.is_within_trading_hours (base self) current_time (clock 0%nat))
  then Returned None
  else
    let calls :=
      filter (fun c => OptionType_eqb (OptionContract.option_type c) CALL)
             available_contracts in
    match calls with
    | [] => Returned None
    | _ :: _ =>
      match select_by_delta (target_delta self) underlying_price calls with
      | None => Returned None
      | Some best_contract =>
        let signal :=
          StrategySignal.mk strategy_type [best_contract] [BUY] [1%Z] (7 # 10)
            [Lit "Long call on "; FmtStr (OptionContract.underlying best_contract);
             Lit " @ "; FmtDecimal (OptionContract.strike best_contract)]
            (BaseStrategy.or_now current_time (clock 1%nat)) in
        match OptionContract.mid_price best_contract with
        | Some mid_price =>
          if Decimal_truthy mid_price
          then
            if Qeq_bool underlying_price 0 then Raised DivisionByZero
            else
              let premium_pct := mid_price / underlying_price * 100 in
              if Qlt_bool (max_premium_pct self) premium_pct
              then Returned None
              else Returned (Some signal)
          else Returned (Some signal)
        | None => Returned (Some signal)
        end
      end
    end.

End LongCallStrategy.

Module LongPutStrategy.

Record t : Type := mk
  { base : BaseStrategy.t;
    target_delta : float;
    max_premium_pct : float }.

Definition default : t := mk BaseStrategy.default (- (1 # 2)) 2.

Definition strategy_type : StrategyType := LONG_PUT.

Definition generate_signal (self : t) (clock : Clock)
    (underlying_price : Decimal) (available_contracts : list OptionContract.t)
    (current_time : option datetime) : outcome (option StrategySignal.t) :=
  if negb (BaseStrategy.is_within_trading_hours (base self) current_time (clock 0%nat))
  then Returned None
  else
    let puts :=
      filter (fun c => OptionType_eqb (OptionContract.option_type c) PUT)
             available_contracts in
    match puts with
    | [] => Returned None
    | _ :: _ =>
      match select_by_delta (target_delta self) underlying_price puts with
      | None => Returned None
      | Some best_contract =>
        Returned (Some
          (StrategySignal.mk strategy_type [best_contract] [BUY] [1%Z] (7 # 10)
             [Lit "Long put on "; FmtStr (OptionContract.underlying best_contract);
              Lit " @ "; FmtDecimal (OptionContract.strike best_contract)]
             (BaseStrategy.or_now current_time (clock 1%nat))))
      end
    end.

End LongPutStrategy.




(** One possible iteration order: first occurrences, in insertion order. *)
Fixpoint insertion_order (l : list Decimal) : list Decimal :=
  match l with
  | [] => []
  | x :: l' => x :: filter (fun y => negb (Qeq_bool x y)) (insertion_order l')
  end.

Module StraddleStrategy.

Record t : Type := mk
  { base : BaseStrategy.t;
    max_total_premium_pct : float }.

Definition default : t := mk BaseStrategy.default 4.

Definition strategy_type : StrategyType := STRADDLE.

Definition find_atm_strike (set_iter : list Decimal -> list Decimal)
    (contracts : list OptionContract.t) (underlying_price : Decimal)
  : option Decimal :=
  let strikes := set_iter (map OptionContract.strike contracts) in
  match strikes with
  | [] => None
  | s :: strikes' =>
    Some (min_from (fun s => Qabs (s - underlying_price)) s strikes')
  end.

(** One turn of the loop that looks for the two legs, on the pair
    [(atm_call, atm_put)]. *)
Definition leg_step (atm_strike : Decimal)
    (legs : option OptionContract.t * option OptionContract.t)
    (contract : OptionContract.t)
  : option OptionContract.t * option OptionContract.t :=
  if Qeq_bool (OptionContract.strike contract) atm_strike
  then
    match OptionContract.option_type contract with
    | CALL => (Some contract, snd legs)
    | PUT => (fst legs, Some contract)
    end
  else legs.

Definition find_legs (atm_strike : Decimal)
    (available_contracts : list OptionContract.t)
  : option OptionContract.t * option OptionContract.t :=
  fold_left (leg_step atm_strike) available_contracts (None, None).

Definition generate_signal (self : t) (set_iter : list Decimal -> list Decimal)
    (clock : Clock) (underlying_price : Decimal)
    (available_contracts : list OptionContract.t)
    (current_time : option datetime) : outcome (option StrategySignal.t) :=
  if negb (BaseStrategy.is_within_trading_hours (base self) current_time (clock 0%nat))
  then Returned None
  else
    match find_atm_strike set_iter available_contracts underlying_price with
    | None => Returned None
    | Some atm_strike =>
      match find_legs atm_strike available_contracts with
      | (Some atm_call, Some atm_put) =>
        Returned (Some
          (StrategySignal.mk strategy_type [atm_call; atm_put] [BUY; BUY]
             [1%Z; 1%Z] (65 # 100)
             [Lit "Straddle on "; FmtStr (OptionContract.underlying atm_call);
              Lit " @ "; FmtDecimal atm_strike]
             (BaseStrategy.or_now current_time (clock 1%nat))))
      | _ => Returned None
      end
    end.

End StraddleStrategy.

Module StrangleStrategy.

Record t : Type := mk
  { base : BaseStrategy.t;
    call_delta : float;
    put_delta : float }.

Definition default : t := mk BaseStrategy.default (3 # 10) (- (3 # 10)).

Definition strategy_type : StrategyType := STRANGLE.

Definition generate_signal (self : t) (clock : Clock)
    (underlying_price : Decimal) (available_contracts : list OptionContract.t)
    (current_time : option datetime) : outcome (option StrategySignal.t) :=
  if negb (BaseStrategy.is_within_trading_hours (base self) current_time (clock 0%nat))
  then Returned None
  else
    let calls :=
      filter (fun c => OptionType_eqb (OptionContract.option_type c) CALL)
             available_contracts in
    let puts :=
      filter (fun c => OptionType_eqb (OptionContract.option_type c) PUT)
             available_contracts in
    match calls, puts with
    | _ :: _, _ :: _ =>
      let otm_calls :=
        filter (fun c => Qlt_bool underlying_price (OptionContract.strike c))
               calls in
      let otm_puts :=
        filter (fun c => Qlt_bool (OptionContract.strike c) underlying_price)
               puts in
      match otm_calls, otm_puts with
      | c0 :: otm_calls', p0 :: otm_puts' =>
        let selected_call := min_from OptionContract.strike c0 otm_calls' in
        let selected_put := max_from OptionContract.strike p0 otm_puts' in
        Returned (Some
          (StrategySignal.mk strategy_type [selected_call; selected_put]
             [BUY; BUY] [1%Z; 1%Z] (6 # 10)
             [Lit "Strangle: call@";
              FmtDecimal (OptionContract.strike selected_call);
              Lit ", put@";
              FmtDecimal (OptionContract.strike selected_put)]
             (BaseStrategy.or_now current_time (clock 1%nat))))
      | _, _ => Returned None
      end
    | _, _ => Returned None
    end.

End StrangleStrategy.

(** The strategy family: [BaseStrategy] with its four subclasses, and the
    dispatch of the abstract [generate_signal] on the class of the object. *)
Module Strategy.

Inductive t : Type :=
| LongCall (self : LongCallStrategy.t)
| LongPut (self : LongPutStrategy.t)
| Straddle (self : StraddleStrategy.t)
| Strangle (self : StrangleStrategy.t).

Definition base (strategy : t) : BaseStrategy.t :=
  match strategy with
  | LongCall self => LongCallStrategy.base self
  | LongPut self => LongPutStrategy.base self
  | Straddle self => StraddleStrategy.base self
  | Strangle self => StrangleStrategy.base self
  end.

Definition strategy_type (strategy : t) : StrategyType :=
  match strategy with
  | LongCall _ => LongCallStrategy.strategy_type
  | LongPut _ => LongPutStrategy.strategy_type
  | Straddle _ => StraddleStrategy.strategy_type
  | Strangle _ => StrangleStrategy.strategy_type
  end.

Definition generate_signal (strategy : t)
    (set_iter : list Decimal -> list Decimal) (clock : Clock)
    (underlying_price : Decimal) (available_contracts : list OptionContract.t)
    (current_time : option datetime) : outcome (option StrategySignal.t) :=
  match strategy with
  | LongCall self =>
    LongCallStrategy.generate_signal self clock underlying_price
      available_contracts current_time
  | LongPut self =>
    LongPutStrategy.generate_signal self clock underlying_price
      available_contracts current_time
  | Straddle self =>
    StraddleStrategy.generate_signal self set_iter clock underlying_price
      available_contracts current_time
  | Strangle self =>
    StrangleStrategy.generate_signal self clock underlying_price
      available_contracts current_time
  end.

(** [strategy.create_orders(signal)], inherited from the base class. *)
Definition create_orders (strategy : t) (clock : Clock)
    (signal : StrategySignal.t) : outcome (list Order.t) :=
  BaseStrategy.create_orders (base strategy) clock signal.

End Strategy.

(** ** broker.py *)

(** The module-level constants of broker.py. *)
Module Broker.

Definition MARKET_OPEN : time := mk_time 9 30 0 0.
Definition MARKET_CLOSE : time := mk_time 16 0 0 0.
Definition ALPACA_0DTE_CUTOFF : time := mk_time 15 15 0 0.

End Broker.

(** [os.environ]: a lookup from names to values. *)
Definition Environ := string -> option string.

(** [os.environ.get(key, default)] *)
Definition environ_get (environ : Environ) (key default : string) : string :=
  match environ key with
  | Some v => v
  | None => default
  end.

Module BrokerConfig.

Record t : Type := mk
  { api_key : string;
    api_secret : string;
    base_url : string;
    data_url : string }.

Definition from_env (environ : Environ) : outcome t :=
  let api_key := environ_get environ "ALPACA_API_KEY" "" in
  let api_secret := environ_get environ "ALPACA_API_SECRET" "" in
  let base_url :=
    environ_get environ "ALPACA_BASE_URL" "https://paper-api.alpaca.markets" in
  if String.eqb api_key "" || String.eqb api_secret ""
  then Raised (ValueError "ALPACA_API_KEY and ALPACA_API_SECRET must be set")
  else Returned (mk api_key api_secret base_url "https://data.alpaca.markets").

End BrokerConfig.

Module AccountInfo.

Record t : Type := mk
  { account_id : string;
    buying_power : Decimal;
    cash : Decimal;
    portfolio_value : Decimal;
    equity : Decimal;
    pattern_day_trader : bool;
    trading_blocked : bool;
    options_approved : bool;
    options_level : Z }.

Definition can_trade_options (self : t) : bool :=
  options_approved self && negb (trading_blocked self).

End AccountInfo.

Module AlpacaBroker.

Record t : Type := mk
  { config : option BrokerConfig.t;
    connected : bool;
    account : option AccountInfo.t }.

Definition M := St.M t.

(** [AlpacaBroker(config)] *)
Definition init (config : option BrokerConfig.t) : t := mk config false None.

(** The id that [submit_order] formats from a clock reading. *)
Inductive order_id : Type :=
| OrderAt (now : datetime).

(** The dict that [get_order_status] returns. *)
Record order_status : Type := mk_status
  { status_order_id : string;
    status : string;
    filled_qty : Z }.

Local Open Scope st_scope.

Definition is_connected : M bool := St.gets connected.

Definition connect (environ : Environ) : M bool :=
  config <- St.gets config ;;
  match config with
  | None =>
    match BrokerConfig.from_env environ with
    | Raised _ => St.ret false
    | Returned c =>
      _ <- St.modify (fun s => mk (Some c) true (account s)) ;;
      St.ret true
    end
  | Some _ =>
    _ <- St.modify (fun s => mk (AlpacaBroker.config s) true (account s)) ;;
    St.ret true
  end.

Definition disconnect : M unit :=
  St.modify (fun s => mk (config s) false None).

Definition mock_account : AccountInfo.t :=
  AccountInfo.mk "test-account" 100000 100000 100000 100000
    false false true 2.

Definition get_account : M (option AccountInfo.t) :=
  connected <- St.gets connected ;;
  if negb connected then St.ret None
  else
    account <- St.gets account ;;
    _ <- match account with
         | None =>
           St.modify (fun s => mk (config s) (AlpacaBroker.connected s)
                                  (Some mock_account))
         | Some _ => St.ret tt
         end ;;
    St.gets AlpacaBroker.account.

Definition is_market_open (now : datetime) : bool :=
  time_leb Broker.MARKET_OPEN (dt_time now)
  && time_leb (dt_time now) Broker.MARKET_CLOSE.

Definition can_trade_0dte (now : datetime) : bool :=
  time_ltb (dt_time now) Broker.ALPACA_0DTE_CUTOFF.

(** [cutoff - now] is a whole number of microseconds; [total_seconds()]
    divides it by 10**6 and [int] truncates. *)
Definition get_time_to_cutoff (now : datetime) : option Z :=
  if negb (time_ltb (dt_time now) Broker.ALPACA_0DTE_CUTOFF) then None
  else
    let delta :=
      (microseconds_of_day Broker.ALPACA_0DTE_CUTOFF
       - microseconds_of_day (dt_time now))%Z in
    Some (int_of_Decimal (inject_Z delta / 1000000)).

Definition submit_order (now : datetime) (symbol : string) (qty : Z)
    (side : string) (order_type : string) (limit_price : option Decimal)
    (time_in_force : string) : M (option order_id) :=
  connected <- St.gets connected ;;
  if negb connected then St.ret None
  else if String.eqb order_type "limit"
          && match limit_price with None => true | Some _ => false end
  then St.ret None
  else if (qty <=? 0)%Z then St.ret None
  else if negb (String.eqb side "buy" || String.eqb side "sell") then St.ret None
  else St.ret (Some (OrderAt now)).

Definition cancel_order (order_id : string) : M bool :=
  connected <- St.gets connected ;;
  if negb connected then St.ret false else St.ret true.

Definition get_order_status (order_id : string) : M (option order_status) :=
  connected <- St.gets connected ;;
  if negb connected then St.ret None
  else St.ret (Some (mk_status order_id "new" 0)).

End AlpacaBroker.

(** ** Sample data *)

Module Sample.

Definition noon : datetime := mk_datetime 738876%Z (mk_time 12 0 0 0).
Definition clock : Clock := fun _ => noon.

(** A quote with the fields the fixtures leave at their defaults. *)
Definition quote (symbol : string) (option_type : OptionType)
    (strike : Decimal) (bid ask last_price : option Decimal)
    (delta : option float) : OptionContract.t :=
  OptionContract.mk symbol "SPY" option_type strike 738876%Z bid ask last_price
    0 0 None delta None None None.

Definition sample_call_contract : OptionContract.t :=
  quote "SPY231222C00475000" CALL 475
    (Some (250 # 100)) (Some (260 # 100)) (Some (255 # 100)) (Some (1 # 2)).

Definition sample_put_contract : OptionContract.t :=
  quote "SPY231222P00475000" PUT 475
    (Some (180 # 100)) (Some (190 # 100)) (Some (185 # 100)) (Some (- (45 # 100))).


Definition order (order_type : string) (quantity : Z)
    (limit_price : option Decimal) : Order.t :=
  Order.mk sample_call_contract BUY quantity order_type limit_price
    "day" None "new" 0 None noon.

End Sample.

(** * Vocabulary of the statements *)

(** ** Orders *)

(** The reading under which a market order ignores its limit-price field. *)
Definition market_validity_ignores_price : Prop :=
  forall (o : Order.t) (p : option Decimal),
    Order.order_type o = "market"%string ->
    Order.validate
      (Order.mk (Order.contract o) (Order.side o) (Order.quantity o)
         (Order.order_type o) p (Order.time_in_force o) (Order.order_id o)
         (Order.status o) (Order.filled_quantity o) (Order.filled_price o)
         (Order.created_at o))
    = Order.validate o.

(** ** Risk manager *)

(** The notional of the positions that [keep] selects, summed. *)
Fixpoint notional_sum (keep : Position.t -> bool) (ps : list Position.t) : Q :=
  match ps with
  | [] => 0
  | p :: ps' =>
    (if keep p then Position.notional_value p else 0) + notional_sum keep ps'
  end.

(** Notional of the long positions of the ledger. *)
Definition long_notional (s : RiskManager.t) : Q :=
  notional_sum Position.is_long (RiskManager.open_positions s).

(** Notional, long and short, of the ledger's positions on [underlying]. *)
Definition exposure_on (underlying : string) (s : RiskManager.t) : Q :=
  notional_sum
    (fun p => String.eqb (OptionContract.underlying (Position.contract p)) underlying)
    (RiskManager.open_positions s).

(** Long notional as a percentage of the account value, 0 for an account
    value that is not positive. *)
Definition risk_pct_of (s : RiskManager.t) : Q :=
  if Qle_bool (RiskManager.account_value s) 0 then 0
  else long_notional s / RiskManager.account_value s * 100.

(** Notional of the proposed order at the price [p]. *)
Definition order_notional (o : Order.t) (p : Decimal) : Q :=
  p * inject_Z (Order.quantity o) * 100.

(** The conditions of the five checks of [can_take_trade]. *)
Definition daily_loss_hit (s : RiskManager.t) : Prop :=
  RiskManager.daily_pnl s
  < - (RiskManager.account_value s
       * (RiskLimits.max_daily_loss_pct (RiskManager.limits s) / 100)).

Definition portfolio_risk_hit (s : RiskManager.t) : Prop :=
  RiskLimits.max_portfolio_risk_pct (RiskManager.limits s) <= risk_pct_of s.

Definition trade_risk_hit (s : RiskManager.t) (o : Order.t) : Prop :=
  exists p, Order.limit_price o = Some p
    /\ RiskManager.account_value s
       * (RiskLimits.max_single_trade_risk_pct (RiskManager.limits s) / 100)
       < order_notional o p.

Definition position_size_hit (s : RiskManager.t) (o : Order.t) : Prop :=
  (RiskLimits.max_position_size (RiskManager.limits s) < Order.quantity o)%Z.

Definition concentration_hit (s : RiskManager.t) (o : Order.t) : Prop :=
  exists p, Order.limit_price o = Some p
    /\ RiskManager.account_value s
       * (RiskLimits.max_concentration_pct (RiskManager.limits s) / 100)
       < exposure_on (OptionContract.underlying (Order.contract o)) s
         + order_notional o p.

(** ** Risk scenarios *)

Module Scenario.

(** A short position of 200 contracts at 2.55 on SPY: 51000 of notional. *)
Definition short_spy : Position.t :=
  Position.mk Sample.sample_call_contract 200 (255 # 100) Sample.noon SELL.

(** A long position of 5 contracts at 2.55 on SPY: 1275 of notional. *)
Definition long_spy : Position.t :=
  Position.mk Sample.sample_call_contract 5 (255 # 100) Sample.noon BUY.



End Scenario.

(** ** Signals *)

(** Structural validity of a signal as the data model words it: legs
    present, the three parallel sequences of one length, confidence within
    [0, 1]. *)
Definition structurally_valid (sig : StrategySignal.t) : Prop :=
  StrategySignal.contracts sig <> []
  /\ List.length (StrategySignal.contracts sig)
     = List.length (StrategySignal.sides sig)
  /\ List.length (StrategySignal.sides sig)
     = List.length (StrategySignal.quantities sig)
  /\ 0 <= StrategySignal.confidence sig <= 1.

Module SignalSample.

(** One contract, one side and no quantity. *)
Definition missing_quantity : StrategySignal.t :=
  StrategySignal.mk LONG_CALL [Sample.sample_call_contract] [BUY] []
    (7 # 10) [Lit "Mismatched"] Sample.noon.


End SignalSample.

(** ** Strategies *)

(** The time gate, for the call [generate_signal (clock, current_time)]. *)
Definition in_hours (base : BaseStrategy.t) (clock : Clock)
    (current_time : option datetime) : Prop :=
  BaseStrategy.is_within_trading_hours base current_time (clock 0%nat) = true.

(** Out-of-the-money calls and puts of a chain at an underlying price. *)
Definition otm_call (price : Decimal) (chain : list OptionContract.t)
    (c : OptionContract.t) : Prop :=
  In c chain /\ OptionContract.option_type c = CALL
  /\ price < OptionContract.strike c.

Definition otm_put (price : Decimal) (chain : list OptionContract.t)
    (c : OptionContract.t) : Prop :=
  In c chain /\ OptionContract.option_type c = PUT
  /\ OptionContract.strike c < price.

(** A contract of the chain of the given kind at the given strike. *)
Definition leg_at (kind : OptionType) (strike : Decimal)
    (chain : list OptionContract.t) (c : OptionContract.t) : Prop :=
  In c chain /\ OptionContract.option_type c = kind
  /\ OptionContract.strike c == strike.

(** The boolean test for [leg_at]. *)
Definition is_leg (kind : OptionType) (atm : Decimal) (c : OptionContract.t) : bool :=
  OptionType_eqb (OptionContract.option_type c) kind
  && Qeq_bool (OptionContract.strike c) atm.

(** A two-leg signal buying one contract of each of [call] and [put]. *)
Definition two_leg_buy (sig : StrategySignal.t) (call put : OptionContract.t)
    (confidence : float) : Prop :=
  StrategySignal.contracts sig = [call; put]
  /\ StrategySignal.sides sig = [BUY; BUY]
  /\ StrategySignal.quantities sig = [1%Z; 1%Z]
  /\ StrategySignal.confidence sig = confidence.

(** A single-leg signal buying one contract of [c]. *)
Definition one_leg_buy (sig : StrategySignal.t) (c : OptionContract.t) : Prop :=
  StrategySignal.contracts sig = [c]
  /\ StrategySignal.sides sig = [BUY]
  /\ StrategySignal.quantities sig = [1%Z].

Module Chain.

Definition call (strike : Decimal) : OptionContract.t :=
  Sample.quote "SPY-C" CALL strike (Some (150 # 100)) (Some (160 # 100)) None None.

Definition put (strike : Decimal) : OptionContract.t :=
  Sample.quote "SPY-P" PUT strike (Some (130 # 100)) (Some (140 # 100)) None None.

(** Calls and puts at the strikes 465, 470, 475, 480, 485. *)
Definition straddle_chain : list OptionContract.t :=
  [call 475; put 475; call 465; put 465; call 470; put 470;
   call 480; put 480; call 485; put 485].

(** Calls at 480 and 490, puts at 460 and 470. *)
Definition strangle_chain : list OptionContract.t :=
  [call 490; call 480; put 460; put 470].

End Chain.

(** ** Premium scenarios *)

Module Premium.




End Premium.

(** ** Signals of the strategy family *)

(** The legs of a signal are contracts of the chain, of the kinds that the
    strategy trades: one call, one put, or a call followed by a put. *)
Definition legs_of_kind (strategy : Strategy.t) (chain : list OptionContract.t)
    (sig : StrategySignal.t) : Prop :=
  match strategy with
  | Strategy.LongCall _ =>
    exists c, one_leg_buy sig c /\ In c chain
              /\ OptionContract.option_type c = CALL
  | Strategy.LongPut _ =>
    exists c, one_leg_buy sig c /\ In c chain
              /\ OptionContract.option_type c = PUT
  | Strategy.Straddle _ | Strategy.Strangle _ =>
    exists call put,
      StrategySignal.contracts sig = [call; put]
      /\ StrategySignal.sides sig = [BUY; BUY]
      /\ StrategySignal.quantities sig = [1%Z; 1%Z]
      /\ In call chain /\ OptionContract.option_type call = CALL
      /\ In put chain /\ OptionContract.option_type put = PUT
  end.

(** The fixed confidence of each strategy. *)
Definition confidence_of (strategy : Strategy.t) : float :=
  match strategy with
  | Strategy.LongCall _ | Strategy.LongPut _ => 7 # 10
  | Strategy.Straddle _ => 65 # 100
  | Strategy.Strangle _ => 6 # 10
  end.



(** * Properties *)

(** ** Boolean comparisons *)

Lemma Qlt_bool_iff (x y : Q) : Qlt_bool x y = true <-> x < y.
Proof.
  unfold Qlt_bool. rewrite negb_true_iff. split.
  - intro H. apply Qnot_le_lt. intro Hle.
    apply Qle_bool_iff in Hle. congruence.
  - intro H. destruct (Qle_bool y x) eqn:E; [|reflexivity].
    apply Qle_bool_iff in E. exfalso. exact (Qlt_not_le _ _ H E).
Qed.

Lemma Qlt_bool_false_iff (x y : Q) : Qlt_bool x y = false <-> y <= x.
Proof.
  unfold Qlt_bool. rewrite negb_false_iff. apply Qle_bool_iff.
Qed.


Lemma Qlt_bool_spec (x y : Q) : reflect (x < y) (Qlt_bool x y).
Proof.
  destruct (Qlt_bool x y) eqn:E; constructor.
  - now apply Qlt_bool_iff.
  - intro H. apply Qlt_bool_iff in H. congruence.
Qed.

Lemma Qle_bool_spec (x y : Q) : reflect (x <= y) (Qle_bool x y).
Proof.
  destruct (Qle_bool x y) eqn:E; constructor.
  - now apply Qle_bool_iff.
  - intro H. apply Qle_bool_iff in H. congruence.
Qed.

(** ** The embedding on the fixtures of the test suite *)

Example mid_price_of_sample_call :
  exists m, OptionContract.mid_price Sample.sample_call_contract = Some m
            /\ m == 255 # 100.
Proof. eexists. split; reflexivity. Qed.

Example new_manager_approves_sample_order :
  St.eval (RiskManager.can_take_trade (Sample.order "limit" 2 (Some (255 # 100))))
    (RiskManager.init 100000 None)
  = (true, RiskManager.approved_msg).
Proof. reflexivity. Qed.

Example portfolio_risk_counts_long_only :
  St.eval RiskManager.portfolio_risk
    (RiskManager.mk 100000 RiskLimits.default 0
       [Scenario.long_spy; Scenario.short_spy])
  == 1275.
Proof. reflexivity. Qed.

Example mismatched_sides_fail_validation :
  StrategySignal.validate
    (StrategySignal.mk LONG_CALL [Sample.sample_call_contract] [BUY; BUY] [1%Z]
       (7 # 10) [Lit "Mismatched"] Sample.noon) = false.
Proof. reflexivity. Qed.

Example cutoff_boundary :
  BaseStrategy.is_within_trading_hours BaseStrategy.default
    (Some (mk_datetime 738876%Z (mk_time 15 14 59 0))) Sample.noon = true
  /\ BaseStrategy.is_within_trading_hours BaseStrategy.default
       (Some (mk_datetime 738876%Z (mk_time 15 15 0 0))) Sample.noon = false.
Proof. split; reflexivity. Qed.

Example long_put_picks_sample_put :
  exists sig,
    LongPutStrategy.generate_signal LongPutStrategy.default Sample.clock 475
      [Sample.sample_call_contract; Sample.sample_put_contract] None
    = Returned (Some sig)
    /\ StrategySignal.contracts sig = [Sample.sample_put_contract].
Proof. eexists. split; reflexivity. Qed.

(** ** Order validation *)

(** C8, counterexample: a market order of quantity 1 is valid without a
    limit price and invalid when it carries the limit price -1, so the
    validity of a market order does depend on the limit-price field. *)
Lemma order_validate_market_price_matters :
  Order.validate (Sample.order "market" 1 None) = true
  /\ Order.validate (Sample.order "market" 1 (Some (- (1)))) = false
  /\ ~ market_validity_ignores_price.
Proof.
  split; [reflexivity|]. split; [reflexivity|].
  intro H.
  specialize (H (Sample.order "market" 1 None) (Some (- (1))) eq_refl).
  discriminate H.
Qed.

(** C8, amended: an order is valid exactly when its quantity is positive,
    a limit price is present if its kind is limit, and the limit price it
    carries, whatever its kind, is positive.  For an order without a limit
    price this is: quantity positive and kind other than limit. *)
Theorem order_validate_iff (o : Order.t) :
  (Order.validate o = true <->
     (0 < Order.quantity o)%Z
     /\ (Order.order_type o = "limit"%string -> Order.limit_price o <> None)
     /\ (forall p, Order.limit_price o = Some p -> 0 < p))
  /\ (Order.limit_price o = None ->
      (Order.validate o = true <->
         (0 < Order.quantity o)%Z /\ Order.order_type o <> "limit"%string)).
Proof.
  unfold Order.validate.
  destruct (Z.leb_spec (Order.quantity o) 0) as [Hq|Hq].
  - split; [|intros _]; (split; [discriminate | intros [H _]; lia]).
  - destruct (String.eqb_spec (Order.order_type o) "limit") as [Hk|Hk];
      destruct (Order.limit_price o) as [p|] eqn:Hp; simpl.
    + split; [|discriminate].
      destruct (Qle_bool_spec p 0) as [Hle|Hle].
      * split; [discriminate|]. intros (_ & _ & H).
        specialize (H p eq_refl). exfalso. exact (Qlt_not_le _ _ H Hle).
      * split; [|reflexivity]. intros _. split; [exact Hq|].
        split; [discriminate|]. intros p' [= <-]. now apply Qnot_le_lt.
    + split; [|intros _]; (split; [discriminate|]).
      * intros (_ & H & _). exfalso. now apply (H Hk).
      * intros [_ H]. exfalso. now apply H.
    + split; [|discriminate].
      destruct (Qle_bool_spec p 0) as [Hle|Hle].
      * split; [discriminate|]. intros (_ & _ & H).
        specialize (H p eq_refl). exfalso. exact (Qlt_not_le _ _ H Hle).
      * split; [|reflexivity]. intros _. split; [exact Hq|].
        split; [discriminate|]. intros p' [= <-]. now apply Qnot_le_lt.
    + split; [|intros _]; (split; [|reflexivity]); intros _.
      * split; [exact Hq|]. split; [intro; contradiction | discriminate].
      * split; [exact Hq | exact Hk].
Qed.

(** ** Position sizer *)










(** ** Risk manager: the derived quantities *)

Lemma fold_left_Qplus_acc (l : list Q) (a : Q) :
  fold_left Qplus l a == a + fold_left Qplus l 0.
Proof.
  revert a. induction l as [|x l IH]; intro a; simpl.
  - ring.
  - rewrite (IH (a + x)), (IH (0 + x)). ring.
Qed.

Lemma fold_left_cond_acc (keep : Position.t -> bool) (ps : list Position.t) (a : Q) :
  fold_left
    (fun total p => if keep p then total + Position.notional_value p else total)
    ps a
  == a + notional_sum keep ps.
Proof.
  revert a. induction ps as [|p ps IH]; intro a; simpl.
  - ring.
  - rewrite IH. destruct (keep p); ring.
Qed.

Lemma exposure_fold (keep : Position.t -> bool) (ps : list Position.t) :
  fold_left Qplus (map Position.notional_value (filter keep ps)) 0
  == notional_sum keep ps.
Proof.
  induction ps as [|p ps IH]; simpl.
  - reflexivity.
  - destruct (keep p); simpl.
    + rewrite fold_left_Qplus_acc, IH. ring.
    + rewrite IH. ring.
Qed.

Lemma portfolio_risk_run (s : RiskManager.t) :
  RiskManager.portfolio_risk s = (St.eval RiskManager.portfolio_risk s, s).
Proof. reflexivity. Qed.

Lemma portfolio_risk_long_only (s : RiskManager.t) :
  St.eval RiskManager.portfolio_risk s == long_notional s.
Proof.
  unfold St.eval, RiskManager.portfolio_risk, St.bind, St.gets, St.ret. simpl.
  rewrite fold_left_cond_acc. unfold long_notional. ring.
Qed.

Lemma portfolio_risk_pct_run (s : RiskManager.t) :
  RiskManager.portfolio_risk_pct s = (St.eval RiskManager.portfolio_risk_pct s, s).
Proof.
  unfold St.eval, RiskManager.portfolio_risk_pct, St.bind, St.gets, St.ret.
  destruct (Qle_bool (RiskManager.account_value s) 0); reflexivity.
Qed.

Lemma portfolio_risk_pct_spec (s : RiskManager.t) :
  St.eval RiskManager.portfolio_risk_pct s == risk_pct_of s.
Proof.
  unfold St.eval, RiskManager.portfolio_risk_pct, risk_pct_of,
    St.bind, St.gets, St.ret.
  destruct (Qle_bool (RiskManager.account_value s) 0); simpl.
  - reflexivity.
  - pose proof (portfolio_risk_long_only s) as H.
    unfold St.eval in H. simpl in H. rewrite H. reflexivity.
Qed.

(** ** Risk manager: the admissibility check *)

Ltac run_manager :=
  unfold St.eval, RiskManager.can_take_trade, RiskManager.get_risk_summary,
    RiskManager.available_risk_budget, RiskManager.calculate_max_loss,
    St.bind, St.gets, St.ret;
  cbn [fst snd].

Ltac step_manager :=
  first
    [ rewrite portfolio_risk_pct_run
    | rewrite portfolio_risk_run
    | match goal with
      | |- context [if ?b then _ else _] => destruct b
      | |- context [match Order.limit_price ?o with _ => _ end] =>
        destruct (Order.limit_price o)
      end ];
  cbn [fst snd].

Lemma can_take_trade_run (s : RiskManager.t) (o : Order.t) :
  RiskManager.can_take_trade o s
  = (St.eval (RiskManager.can_take_trade o) s, s).
Proof.
  run_manager. repeat step_manager; reflexivity.
Qed.

Lemma get_risk_summary_run (s : RiskManager.t) :
  RiskManager.get_risk_summary s
  = (St.eval RiskManager.get_risk_summary s, s).
Proof. run_manager. repeat step_manager; reflexivity. Qed.

(** The decision list of [can_take_trade]. *)
Lemma can_take_trade_cases (s : RiskManager.t) (o : Order.t) :
  let r := St.eval (RiskManager.can_take_trade o) s in
  (daily_loss_hit s /\ r = (false, RiskManager.daily_loss_msg))
  \/ (~ daily_loss_hit s /\ portfolio_risk_hit s
      /\ r = (false, RiskManager.portfolio_risk_msg))
  \/ (~ daily_loss_hit s /\ ~ portfolio_risk_hit s /\ trade_risk_hit s o
      /\ exists p, Order.limit_price o = Some p
         /\ r = (false,
                 RiskManager.trade_risk_msg
                   (order_notional o p)
                   (RiskManager.account_value s
                    * pct_fraction
                        (RiskLimits.max_single_trade_risk_pct
                           (RiskManager.limits s)))))
  \/ (~ daily_loss_hit s /\ ~ portfolio_risk_hit s /\ ~ trade_risk_hit s o
      /\ position_size_hit s o
      /\ r = (false, RiskManager.position_size_msg (Order.quantity o)))
  \/ (~ daily_loss_hit s /\ ~ portfolio_risk_hit s /\ ~ trade_risk_hit s o
      /\ ~ position_size_hit s o /\ concentration_hit s o
      /\ r = (false,
              RiskManager.concentration_msg
                (OptionContract.underlying (Order.contract o))))
  \/ (~ daily_loss_hit s /\ ~ portfolio_risk_hit s /\ ~ trade_risk_hit s o
      /\ ~ position_size_hit s o /\ ~ concentration_hit s o
      /\ r = (true, RiskManager.approved_msg)).
Proof.
  intro r. subst r. run_manager.
  unfold daily_loss_hit, portfolio_risk_hit, trade_risk_hit, position_size_hit,
    concentration_hit, exposure_on, order_notional, pct_fraction.
  destruct (Qlt_bool_spec (RiskManager.daily_pnl s)
              (- (RiskManager.account_value s
                  * (RiskLimits.max_daily_loss_pct (RiskManager.limits s) / 100))))
    as [Hd|Hd]; cbn [fst snd].
  { left. split; [exact Hd | reflexivity]. }
  right. rewrite portfolio_risk_pct_run. cbn [fst snd].
  destruct (Qle_bool_spec
              (RiskLimits.max_portfolio_risk_pct (RiskManager.limits s))
              (St.eval RiskManager.portfolio_risk_pct s)) as [Hp|Hp];
    rewrite portfolio_risk_pct_spec in Hp; cbn [fst snd].
  { left. repeat split; assumption. }
  right.
  destruct (Order.limit_price o) as [p|] eqn:Hprice; cbn [fst snd].
  - destruct (Qlt_bool_spec
                (RiskManager.account_value s
                 * (RiskLimits.max_single_trade_risk_pct (RiskManager.limits s) / 100))
                (p * inject_Z (Order.quantity o) * 100)) as [Ht|Ht];
      cbn [fst snd].
    { left. repeat split; try assumption.
      - exists p. split; [reflexivity | exact Ht].
      - exists p. split; reflexivity. }
    right.
    assert (Hnt : ~ (exists p0, Some p = Some p0
                     /\ RiskManager.account_value s
                        * (RiskLimits.max_single_trade_risk_pct
                             (RiskManager.limits s) / 100)
                        < p0 * inject_Z (Order.quantity o) * 100)).
    { intros (p0 & [= <-] & H). exact (Ht H). }
    destruct (Z.ltb_spec (RiskLimits.max_position_size (RiskManager.limits s))
                (Order.quantity o)) as [Hs|Hs]; cbn [fst snd].
    { left. repeat split; assumption. }
    right.
    assert (Hns : ~ (RiskLimits.max_position_size (RiskManager.limits s)
                     < Order.quantity o)%Z) by lia.
    match goal with
    | |- context [Qlt_bool ?a ?b] => destruct (Qlt_bool_spec a b) as [Hc|Hc]
    end; cbn [fst snd]; rewrite exposure_fold in Hc.
    { left. repeat split; try assumption.
      exists p. split; [reflexivity | exact Hc]. }
    right. repeat split; try assumption.
    intros (p0 & [= <-] & H). exact (Hc H).
  - assert (Hnt : ~ (exists p0, @None Decimal = Some p0
                     /\ RiskManager.account_value s
                        * (RiskLimits.max_single_trade_risk_pct
                             (RiskManager.limits s) / 100)
                        < p0 * inject_Z (Order.quantity o) * 100)).
    { intros (p0 & [=] & _). }
    right.
    destruct (Z.ltb_spec (RiskLimits.max_position_size (RiskManager.limits s))
                (Order.quantity o)) as [Hs|Hs]; cbn [fst snd].
    { left. repeat split; assumption. }
    right.
    assert (Hns : ~ (RiskLimits.max_position_size (RiskManager.limits s)
                     < Order.quantity o)%Z) by lia.
    right. repeat split; try assumption.
    intros (p0 & [=] & _).
Qed.




(** ** Risk manager: frame *)

(** C9: [can_take_trade] and [get_risk_summary] leave the manager as it
    was: the account value, the limits, the daily P&L and the ledger of
    open positions, with its members and their order, are those of the
    state before the call. *)
Theorem queries_preserve_state (s : RiskManager.t) (o : Order.t) :
  let after_check := St.exec (RiskManager.can_take_trade o) s in
  let after_summary := St.exec RiskManager.get_risk_summary s in
  (after_check = s
   /\ RiskManager.account_value after_check = RiskManager.account_value s
   /\ RiskManager.limits after_check = RiskManager.limits s
   /\ RiskManager.daily_pnl after_check = RiskManager.daily_pnl s
   /\ RiskManager.open_positions after_check = RiskManager.open_positions s)
  /\ (after_summary = s
      /\ RiskManager.account_value after_summary = RiskManager.account_value s
      /\ RiskManager.limits after_summary = RiskManager.limits s
      /\ RiskManager.daily_pnl after_summary = RiskManager.daily_pnl s
      /\ RiskManager.open_positions after_summary = RiskManager.open_positions s).
Proof.
  intros after_check after_summary.
  assert (H1 : after_check = s).
  { subst after_check. unfold St.exec. now rewrite can_take_trade_run. }
  assert (H2 : after_summary = s).
  { subst after_summary. unfold St.exec. now rewrite get_risk_summary_run. }
  rewrite H1, H2. repeat split.
Qed.

(** The mutators, by contrast, do change the state they run on. *)
Lemma add_position_extends_ledger (s : RiskManager.t) (p : Position.t) :
  RiskManager.open_positions (St.exec (RiskManager.add_position p) s)
  = RiskManager.open_positions s ++ [p].
Proof. reflexivity. Qed.

Lemma update_daily_pnl_accumulates (s : RiskManager.t) (pnl : Decimal) :
  RiskManager.daily_pnl (St.exec (RiskManager.update_daily_pnl pnl) s)
  = RiskManager.daily_pnl s + pnl.
Proof. reflexivity. Qed.


(** ** Signals and order materialization *)

Lemma signal_validate_iff (sig : StrategySignal.t) :
  StrategySignal.validate sig = true <->
  StrategySignal.contracts sig <> []
  /\ (List.length (StrategySignal.contracts sig)
      = List.length (StrategySignal.sides sig)
      \/ List.length (StrategySignal.sides sig)
         = List.length (StrategySignal.quantities sig))
  /\ 0 <= StrategySignal.confidence sig <= 1.
Proof.
  unfold StrategySignal.validate.
  destruct (StrategySignal.contracts sig) as [|c cs] eqn:Hc.
  - split; [discriminate | intros [H _]; now elim H].
  - set (a := List.length (c :: cs)).
    destruct (Nat.eqb_spec a (List.length (StrategySignal.sides sig))) as [E1|E1];
      destruct (Nat.eqb_spec (List.length (StrategySignal.sides sig))
                  (List.length (StrategySignal.quantities sig))) as [E2|E2];
      destruct (Qle_bool_spec 0 (StrategySignal.confidence sig)) as [L1|L1];
      destruct (Qle_bool_spec (StrategySignal.confidence sig) 1) as [L2|L2];
      cbn [negb andb]; split; try discriminate; try tauto;
      intros _; (split; [discriminate|]); tauto.
Qed.

Lemma structurally_valid_validate (sig : StrategySignal.t) :
  structurally_valid sig -> StrategySignal.validate sig = true.
Proof.
  intros (H1 & H2 & H3 & H4). apply signal_validate_iff. tauto.
Qed.

(** C2, the code at a malformed signal: [validate] chains its two length
    comparisons, so it rejects a length mismatch only when both adjacent
    pairs differ.  The signal with one contract, one side and no quantity
    passes validation, [create_orders] raises nothing for it and returns no
    order at all. *)
Theorem create_orders_mismatched_lengths :
  let sig := SignalSample.missing_quantity in
  List.length (StrategySignal.contracts sig) = 1%nat
  /\ List.length (StrategySignal.quantities sig) = 0%nat
  /\ ~ structurally_valid sig
  /\ StrategySignal.validate sig = true
  /\ BaseStrategy.create_orders BaseStrategy.default Sample.clock sig
     = Returned [].
Proof.
  cbv zeta. repeat split.
  intros (_ & H1 & H2 & _). discriminate H2.
Qed.

Lemma zip3_length {A B C : Type} (a : list A) (b : list B) (c : list C) :
  List.length a = List.length b -> List.length b = List.length c ->
  List.length (zip3 a b c) = List.length a.
Proof.
  revert b c. induction a as [|x a IH]; intros [|y b] [|z c]; simpl;
    try discriminate; try reflexivity.
  intros [= H1] [= H2]. f_equal. now apply IH.
Qed.

Lemma zip3_nth_error_full {A B C : Type} (a : list A) (b : list B) (c : list C)
    (i : nat) (x : A) :
  List.length a = List.length b -> List.length b = List.length c ->
  nth_error a i = Some x ->
  exists y z, nth_error (zip3 a b c) i = Some (x, y, z)
              /\ nth_error b i = Some y /\ nth_error c i = Some z.
Proof.
  revert b c i. induction a as [|x0 a IH]; intros [|y b] [|z c] i; simpl;
    try discriminate.
  - destruct i; discriminate.
  - intros [= H1] [= H2]. destruct i as [|i]; simpl.
    + intros [= ->]. now exists y, z.
    + intro Hn. now apply IH.
Qed.


Lemma build_orders_length (self : BaseStrategy.t) (clock : Clock) (n : nat)
    (legs : list (OptionContract.t * OrderSide * Z)) :
  List.length (BaseStrategy.build_orders self clock n legs) = List.length legs.
Proof.
  revert n. induction legs as [|[[c s] q] legs IH]; intro n; simpl.
  - reflexivity.
  - now rewrite IH.
Qed.


Lemma build_orders_nth_error (self : BaseStrategy.t) (clock : Clock) (n : nat)
    (legs : list (OptionContract.t * OrderSide * Z)) (i : nat)
    (c : OptionContract.t) (s : OrderSide) (q : Z) :
  nth_error legs i = Some (c, s, q) ->
  nth_error (BaseStrategy.build_orders self clock n legs) i
  = Some (Order.new c s (Z.min q (BaseStrategy.max_position_size self))
            (OptionContract.mid_price c) (clock (n + i)%nat)).
Proof.
  revert n i. induction legs as [|[[c0 s0] q0] legs IH]; intros n i; simpl.
  - destruct i; discriminate.
  - destruct i as [|i]; simpl.
    + intros [= -> -> ->]. now rewrite Nat.add_0_r.
    + intro H. rewrite (IH (S n) i H). now rewrite Nat.add_succ_r.
Qed.


(** What [create_orders] does on the signals that are structurally valid:
    it raises nothing and returns one order per leg, of quantity
    min(requested, max_position_size), priced at the contract's mid price.
    It raises only on signals that are not structurally valid. *)
Lemma create_orders_valid_signal
    (self : BaseStrategy.t) (clock : Clock) (sig : StrategySignal.t) :
  (structurally_valid sig ->
   exists orders,
     BaseStrategy.create_orders self clock sig = Returned orders
     /\ List.length orders = List.length (StrategySignal.contracts sig)
     /\ forall i c,
          nth_error (StrategySignal.contracts sig) i = Some c ->
          exists o side qty,
            nth_error orders i = Some o
            /\ nth_error (StrategySignal.sides sig) i = Some side
            /\ nth_error (StrategySignal.quantities sig) i = Some qty
            /\ Order.contract o = c
            /\ Order.side o = side
            /\ Order.quantity o = Z.min qty (BaseStrategy.max_position_size self)
            /\ Order.limit_price o = OptionContract.mid_price c)
  /\ (forall e, BaseStrategy.create_orders self clock sig = Raised e ->
      e = ValueError "Invalid signal" /\ ~ structurally_valid sig).
Proof.
  split.
  - intro Hv. pose proof (structurally_valid_validate sig Hv) as Hval.
    destruct Hv as (_ & Hl1 & Hl2 & _).
    unfold BaseStrategy.create_orders. rewrite Hval. cbn [negb].
    eexists. split; [reflexivity|]. split.
    + rewrite build_orders_length. now apply zip3_length.
    + intros i c Hi.
      destruct (zip3_nth_error_full _ _ _ i c Hl1 Hl2 Hi) as (s & q & Hz & Hs & Hq).
      rewrite (build_orders_nth_error self clock 0 _ i c s q Hz).
      exists (Order.new c s (Z.min q (BaseStrategy.max_position_size self))
                (OptionContract.mid_price c) (clock (0 + i)%nat)), s, q.
      repeat split; assumption.
  - intros e. unfold BaseStrategy.create_orders.
    destruct (StrategySignal.validate sig) eqn:Hval; cbn [negb]; [discriminate|].
    intros [= <-]. split; [reflexivity|].
    intro Hv. apply structurally_valid_validate in Hv. congruence.
Qed.



(** ** Python's [min] and [max] with a key *)

Lemma min_from_In {A : Type} (key : A -> Q) (l : list A) (best : A) :
  In (min_from key best l) (best :: l).
Proof.
  revert best. induction l as [|x l IH]; intro best; simpl.
  - now left.
  - destruct (IH (if Qlt_bool (key x) (key best) then x else best)) as [H|H].
    + destruct (Qlt_bool (key x) (key best)); auto.
    + auto.
Qed.

Lemma min_from_le_best {A : Type} (key : A -> Q) (l : list A) (best : A) :
  key (min_from key best l) <= key best.
Proof.
  revert best. induction l as [|x l IH]; intro best; simpl.
  - apply Qle_refl.
  - eapply Qle_trans; [apply IH|].
    destruct (Qlt_bool_spec (key x) (key best)) as [H|H].
    + now apply Qlt_le_weak.
    + apply Qle_refl.
Qed.

Lemma min_from_least {A : Type} (key : A -> Q) (l : list A) (best x : A) :
  In x (best :: l) -> key (min_from key best l) <= key x.
Proof.
  revert best. induction l as [|y l IH]; intros best Hin.
  - destruct Hin as [<-|[]]. apply Qle_refl.
  - simpl. destruct Hin as [<-|[<-|Hin]].
    + eapply Qle_trans; [apply min_from_le_best|].
      destruct (Qlt_bool_spec (key y) (key best)) as [H|H].
      * now apply Qlt_le_weak.
      * apply Qle_refl.
    + eapply Qle_trans; [apply min_from_le_best|].
      destruct (Qlt_bool_spec (key y) (key best)) as [H|H].
      * apply Qle_refl.
      * now apply Qnot_lt_le.
    + apply IH. now right.
Qed.

Lemma max_from_In {A : Type} (key : A -> Q) (l : list A) (best : A) :
  In (max_from key best l) (best :: l).
Proof.
  revert best. induction l as [|x l IH]; intro best; simpl.
  - now left.
  - destruct (IH (if Qlt_bool (key best) (key x) then x else best)) as [H|H].
    + destruct (Qlt_bool (key best) (key x)); auto.
    + auto.
Qed.

Lemma max_from_ge_best {A : Type} (key : A -> Q) (l : list A) (best : A) :
  key best <= key (max_from key best l).
Proof.
  revert best. induction l as [|x l IH]; intro best; simpl.
  - apply Qle_refl.
  - eapply Qle_trans; [|apply IH].
    destruct (Qlt_bool_spec (key best) (key x)) as [H|H].
    + now apply Qlt_le_weak.
    + apply Qle_refl.
Qed.

Lemma max_from_greatest {A : Type} (key : A -> Q) (l : list A) (best x : A) :
  In x (best :: l) -> key x <= key (max_from key best l).
Proof.
  revert best. induction l as [|y l IH]; intros best Hin.
  - destruct Hin as [<-|[]]. apply Qle_refl.
  - simpl. destruct Hin as [<-|[<-|Hin]].
    + eapply Qle_trans; [|apply max_from_ge_best].
      destruct (Qlt_bool_spec (key best) (key y)) as [H|H].
      * now apply Qlt_le_weak.
      * apply Qle_refl.
    + eapply Qle_trans; [|apply max_from_ge_best].
      destruct (Qlt_bool_spec (key best) (key y)) as [H|H].
      * apply Qle_refl.
      * now apply Qnot_lt_le.
    + apply IH. now right.
Qed.

Lemma OptionType_eqb_eq (a b : OptionType) : OptionType_eqb a b = true <-> a = b.
Proof. destruct a, b; simpl; split; congruence. Qed.

(** ** Strangle *)

Lemma otm_calls_In (price : Decimal) (chain : list OptionContract.t)
    (c : OptionContract.t) :
  In c (filter (fun c => Qlt_bool price (OptionContract.strike c))
          (filter (fun c => OptionType_eqb (OptionContract.option_type c) CALL)
             chain))
  <-> otm_call price chain c.
Proof.
  unfold otm_call. rewrite !filter_In, OptionType_eqb_eq, Qlt_bool_iff. tauto.
Qed.

Lemma otm_puts_In (price : Decimal) (chain : list OptionContract.t)
    (c : OptionContract.t) :
  In c (filter (fun c => Qlt_bool (OptionContract.strike c) price)
          (filter (fun c => OptionType_eqb (OptionContract.option_type c) PUT)
             chain))
  <-> otm_put price chain c.
Proof.
  unfold otm_put. rewrite !filter_In, OptionType_eqb_eq, Qlt_bool_iff. tauto.
Qed.

(** C6: within trading hours the strangle strategy returns no signal unless
    the chain has a call with strike strictly above the underlying price and
    a put with strike strictly below it; when it has both, it emits a
    two-leg signal, one contract bought on each leg, confidence 0.60, whose
    call is an out-of-the-money call of smallest strike and whose put is an
    out-of-the-money put of largest strike.  With calls at 480 and 490 and
    puts at 460 and 470 at the underlying price 475, the legs are the 480
    call and the 470 put. *)
Theorem strangle_selects_nearest_otm
    (self : StrangleStrategy.t) (clock : Clock) (price : Decimal)
    (chain : list OptionContract.t) (current_time : option datetime) :
  in_hours (StrangleStrategy.base self) clock current_time ->
  let r := StrangleStrategy.generate_signal self clock price chain current_time in
  ((~ (exists c, otm_call price chain c) \/ ~ (exists p, otm_put price chain p)) ->
   r = Returned None)
  /\ ((exists c, otm_call price chain c) -> (exists p, otm_put price chain p) ->
      exists sig call put,
        r = Returned (Some sig)
        /\ two_leg_buy sig call put (6 # 10)
        /\ otm_call price chain call
        /\ (forall c, otm_call price chain c ->
            OptionContract.strike call <= OptionContract.strike c)
        /\ otm_put price chain put
        /\ (forall p, otm_put price chain p ->
            OptionContract.strike p <= OptionContract.strike put))
  /\ (exists sig,
        StrangleStrategy.generate_signal StrangleStrategy.default Sample.clock
          475 Chain.strangle_chain None = Returned (Some sig)
        /\ StrategySignal.contracts sig = [Chain.call 480; Chain.put 470]).
Proof.
  intros Hin r. subst r. unfold StrangleStrategy.generate_signal.
  unfold in_hours in Hin. rewrite Hin. cbn [negb].
  pose proof (otm_calls_In price chain) as HC.
  pose proof (otm_puts_In price chain) as HP.
  set (calls := filter (fun c => OptionType_eqb (OptionContract.option_type c) CALL)
                  chain) in *.
  set (puts := filter (fun c => OptionType_eqb (OptionContract.option_type c) PUT)
                 chain) in *.
  assert (Hcalls : calls = [] ->
            filter (fun c => Qlt_bool price (OptionContract.strike c)) calls = [])
    by (intros ->; reflexivity).
  assert (Hputs : puts = [] ->
            filter (fun c => Qlt_bool (OptionContract.strike c) price) puts = [])
    by (intros ->; reflexivity).
  set (otm_calls := filter (fun c => Qlt_bool price (OptionContract.strike c))
                      calls) in *.
  set (otm_puts := filter (fun c => Qlt_bool (OptionContract.strike c) price)
                     puts) in *.
  split; [|split].
  - intros [Hno|Hno].
    + destruct otm_calls as [|c0 cs].
      * destruct calls, puts; reflexivity.
      * exfalso. apply Hno. exists c0. apply HC. now left.
    + destruct otm_puts as [|p0 ps].
      * destruct calls, puts, otm_calls; reflexivity.
      * exfalso. apply Hno. exists p0. apply HP. now left.
  - intros [c Hc] [p Hp]. apply HC in Hc. apply HP in Hp.
    destruct otm_calls as [|c0 cs]; [contradiction|].
    destruct otm_puts as [|p0 ps]; [contradiction|].
    destruct calls as [|c1 calls']; [now specialize (Hcalls eq_refl)|].
    destruct puts as [|p1 puts']; [now specialize (Hputs eq_refl)|].
    eexists _, (min_from OptionContract.strike c0 cs),
      (max_from OptionContract.strike p0 ps).
    split; [reflexivity|]. split; [repeat split|].
    split; [apply HC, min_from_In|].
    split; [intros c' Hc'; apply min_from_least; now apply HC|].
    split; [apply HP, max_from_In|].
    intros p' Hp'. apply max_from_greatest. now apply HP.
  - eexists. split; reflexivity.
Qed.

Lemma strangle_selects_nearest_otm_witness :
  in_hours (StrangleStrategy.base StrangleStrategy.default) Sample.clock None
  /\ exists sig call put,
       StrangleStrategy.generate_signal StrangleStrategy.default Sample.clock
         475 Chain.strangle_chain None = Returned (Some sig)
       /\ two_leg_buy sig call put (6 # 10)
       /\ otm_call 475 Chain.strangle_chain call
       /\ (forall c, otm_call 475 Chain.strangle_chain c ->
           OptionContract.strike call <= OptionContract.strike c)
       /\ otm_put 475 Chain.strangle_chain put
       /\ (forall p, otm_put 475 Chain.strangle_chain p ->
           OptionContract.strike p <= OptionContract.strike put).
Proof.
  split; [reflexivity|].
  apply (strangle_selects_nearest_otm StrangleStrategy.default Sample.clock
           475 Chain.strangle_chain None eq_refl).
  - exists (Chain.call 480). unfold otm_call. simpl. repeat split; auto.
  - exists (Chain.put 470). unfold otm_put. simpl. repeat split; auto.
Defined.

(** ** Straddle *)



Lemma find_app {A : Type} (p : A -> bool) (l1 l2 : list A) :
  find p (l1 ++ l2)
  = match find p l1 with Some x => Some x | None => find p l2 end.
Proof.
  induction l1 as [|x l1 IH]; simpl; [reflexivity|].
  destruct (p x); [reflexivity | exact IH].
Qed.

Lemma is_leg_iff (kind : OptionType) (atm : Decimal) (chain : list OptionContract.t)
    (c : OptionContract.t) :
  In c chain /\ is_leg kind atm c = true <-> leg_at kind atm chain c.
Proof.
  unfold is_leg, leg_at.
  rewrite andb_true_iff, OptionType_eqb_eq, Qeq_bool_iff. tauto.
Qed.

(** The leg loop keeps, for each kind, the last contract of the chain at
    the strike. *)
Lemma find_legs_fold (atm : Decimal) (chain : list OptionContract.t)
    (acc : option OptionContract.t * option OptionContract.t) :
  fst (fold_left (StraddleStrategy.leg_step atm) chain acc)
  = match find (is_leg CALL atm) (rev chain) with
    | Some c => Some c
    | None => fst acc
    end
  /\ snd (fold_left (StraddleStrategy.leg_step atm) chain acc)
     = match find (is_leg PUT atm) (rev chain) with
       | Some c => Some c
       | None => snd acc
       end.
Proof.
  revert acc. induction chain as [|x chain IH]; intro acc.
  - split; reflexivity.
  - cbn [fold_left rev]. rewrite !find_app. cbn [find].
    destruct (IH (StraddleStrategy.leg_step atm acc x)) as [IH1 IH2].
    rewrite IH1, IH2.
    destruct (find (is_leg CALL atm) (rev chain));
      destruct (find (is_leg PUT atm) (rev chain));
      unfold is_leg, StraddleStrategy.leg_step;
      destruct (Qeq_bool (OptionContract.strike x) atm);
      destruct (OptionContract.option_type x); split; reflexivity.
Qed.

Lemma find_legs_call (atm : Decimal) (chain : list OptionContract.t) :
  (forall c, fst (StraddleStrategy.find_legs atm chain) = Some c ->
             leg_at CALL atm chain c)
  /\ ((exists c, leg_at CALL atm chain c) ->
      exists c, fst (StraddleStrategy.find_legs atm chain) = Some c).
Proof.
  unfold StraddleStrategy.find_legs.
  destruct (find_legs_fold atm chain (None, None)) as [H _]. rewrite H.
  cbn [fst]. destruct (find (is_leg CALL atm) (rev chain)) as [c0|] eqn:E; split.
  - intros c [= <-]. apply find_some in E. apply is_leg_iff.
    rewrite <- in_rev in E. exact E.
  - intros _. now exists c0.
  - discriminate.
  - intros [c Hc]. apply is_leg_iff in Hc. destruct Hc as [Hin Hleg].
    rewrite (find_none _ _ E c) in Hleg; [discriminate|].
    now rewrite <- in_rev.
Qed.

Lemma find_legs_put (atm : Decimal) (chain : list OptionContract.t) :
  (forall c, snd (StraddleStrategy.find_legs atm chain) = Some c ->
             leg_at PUT atm chain c)
  /\ ((exists c, leg_at PUT atm chain c) ->
      exists c, snd (StraddleStrategy.find_legs atm chain) = Some c).
Proof.
  unfold StraddleStrategy.find_legs.
  destruct (find_legs_fold atm chain (None, None)) as [_ H]. rewrite H.
  cbn [snd]. destruct (find (is_leg PUT atm) (rev chain)) as [c0|] eqn:E; split.
  - intros c [= <-]. apply find_some in E. apply is_leg_iff.
    rewrite <- in_rev in E. exact E.
  - intros _. now exists c0.
  - discriminate.
  - intros [c Hc]. apply is_leg_iff in Hc. destruct Hc as [Hin Hleg].
    rewrite (find_none _ _ E c) in Hleg; [discriminate|].
    now rewrite <- in_rev.
Qed.




(** ** Long call and long put *)



Lemma delta_scan_In (target : float) (l : list OptionContract.t)
    (acc : option OptionContract.t * option float) (c : OptionContract.t) :
  fst (fold_left (delta_step target) l acc) = Some c ->
  fst acc = Some c \/ In c l.
Proof.
  revert acc. induction l as [|x l IH]; intros acc H.
  - now left.
  - cbn [fold_left] in H. apply IH in H. destruct H as [H|H]; [|right; now right].
    unfold delta_step in H.
    destruct (OptionContract.delta x) as [d|]; [|now left].
    cbv zeta in H. destruct (snd acc) as [b|].
    + destruct (Qlt_bool (Qabs (d - target)) b); [|now left].
      injection H as <-. right. now left.
    + injection H as <-. right. now left.
Qed.

Lemma insert_sorted_In {A : Type} (key : A -> Q) (x c : A) (l : list A) :
  In c (insert_sorted key x l) -> c = x \/ In c l.
Proof.
  induction l as [|y l IH]; simpl.
  - intros [<-|[]]. now left.
  - destruct (Qlt_bool (key y) (key x)); simpl.
    + intros [<-|H]; [right; now left|].
      destruct (IH H) as [->|H']; [now left | right; now right].
    + intros [<-|[<-|H]]; [now left | right; now left | right; now right].
Qed.

Lemma sorted_In {A : Type} (key : A -> Q) (c : A) (l : list A) :
  In c (sorted key l) -> In c l.
Proof.
  induction l as [|x l IH]; simpl; [easy|].
  intro H. apply insert_sorted_In in H. destruct H as [->|H]; [now left|].
  right. now apply IH.
Qed.

Lemma select_by_delta_In (target : float) (price : Decimal)
    (l : list OptionContract.t) (c : OptionContract.t) :
  select_by_delta target price l = Some c -> In c l.
Proof.
  unfold select_by_delta, delta_scan.
  destruct (fst (fold_left (delta_step target) l (None, None))) as [b|] eqn:E.
  - intros [= <-]. apply delta_scan_In in E. destruct E as [E|E]; [discriminate E | exact E].
  - intro H. apply sorted_In with (key := fun c => Qabs (OptionContract.strike c - price)).
    destruct (sorted _ l) as [|y ys]; [discriminate H|].
    injection H as <-. now left.
Qed.




(** * Further properties of the decision core *)

(** ** Quotes, positions and trade results *)





(** X3: Two positions that differ only in direction have opposite unrealized
    P&L at every price, and none at the entry price. *)
Theorem short_pnl_mirrors_long (long short : Position.t) (current_price : Decimal) :
  Position.side long = BUY ->
  Position.side short = SELL ->
  Position.quantity short = Position.quantity long ->
  Position.entry_price short == Position.entry_price long ->
  Position.unrealized_pnl short current_price
  == - Position.unrealized_pnl long current_price
  /\ Position.unrealized_pnl long (Position.entry_price long) == 0
  /\ Position.unrealized_pnl short (Position.entry_price short) == 0.
Proof.
  intros Hl Hs Hq He.
  unfold Position.unrealized_pnl, Position.is_long.
  rewrite Hl, Hs, Hq. cbn [OrderSide_eqb negb]. rewrite He.
  repeat split; ring.
Qed.

Lemma short_pnl_mirrors_long_witness :
  Position.unrealized_pnl
    (Position.mk Sample.sample_call_contract 5 (255 # 100) Sample.noon SELL) 3
  == - Position.unrealized_pnl Scenario.long_spy 3.
Proof.
  apply (short_pnl_mirrors_long Scenario.long_spy
           (Position.mk Sample.sample_call_contract 5 (255 # 100) Sample.noon SELL)
           3 eq_refl eq_refl eq_refl).
  reflexivity.
Defined.



(** ** Position sizer: what the computed size guarantees *)








(** ** Risk manager: budget, ledger and verdicts *)














Lemma remove_first_absent (p : Position.t) (l : list Position.t) :
  existsb (fun x => Position.eqb x p) l = false ->
  RiskManager.remove_first p l = l.
Proof.
  induction l as [|x l IH]; cbn [RiskManager.remove_first existsb app List.length notional_sum]; [reflexivity|].
  rewrite orb_false_iff. intros [Hx Hl]. rewrite Hx. f_equal. now apply IH.
Qed.

Lemma remove_first_present (p : Position.t) (l : list Position.t) :
  existsb (fun x => Position.eqb x p) l = true ->
  exists l1 x l2,
    l = l1 ++ x :: l2
    /\ Position.eqb x p = true
    /\ existsb (fun y => Position.eqb y p) l1 = false
    /\ RiskManager.remove_first p l = l1 ++ l2.
Proof.
  induction l as [|x l IH]; cbn [RiskManager.remove_first existsb app List.length notional_sum]; [discriminate|].
  destruct (Position.eqb x p) eqn:Hx.
  - intros _. now exists [], x, l.
  - cbn [orb]. intro H. destruct (IH H) as (l1 & y & l2 & -> & Hy & Hl1 & Hr).
    exists (x :: l1), y, l2. cbn [RiskManager.remove_first existsb app List.length notional_sum]. rewrite Hx, Hr. auto.
Qed.

(** X9: [remove_position] compares by value.  When no position of the ledger
    equals the given one the manager is left as it was; otherwise exactly
    the first position equal to it goes, the rest of the ledger keeps its
    order, and nothing else changes. *)
Theorem remove_position_effect (s : RiskManager.t) (p : Position.t) :
  let s' := St.exec (RiskManager.remove_position p) s in
  let present :=
    existsb (fun x => Position.eqb x p) (RiskManager.open_positions s) in
  (present = false -> s' = s)
  /\ (present = true ->
      exists l1 x l2,
        RiskManager.open_positions s = l1 ++ x :: l2
        /\ Position.eqb x p = true
        /\ existsb (fun y => Position.eqb y p) l1 = false
        /\ RiskManager.open_positions s' = l1 ++ l2
        /\ S (List.length (RiskManager.open_positions s'))
           = List.length (RiskManager.open_positions s))
  /\ RiskManager.account_value s' = RiskManager.account_value s
  /\ RiskManager.limits s' = RiskManager.limits s
  /\ RiskManager.daily_pnl s' = RiskManager.daily_pnl s.
Proof.
  cbv zeta. unfold St.exec, RiskManager.remove_position, St.modify. cbn [snd].
  destruct (existsb (fun x => Position.eqb x p) (RiskManager.open_positions s))
    eqn:E.
  - split; [discriminate|]. split; [|repeat split].
    intros _. destruct (remove_first_present p _ E) as (l1 & x & l2 & Hl & Hx & Hl1 & Hr).
    exists l1, x, l2. cbn [RiskManager.open_positions]. rewrite Hr, Hl.
    repeat split; try assumption.
    rewrite !length_app. simpl. lia.
  - split; [reflexivity|]. split; [discriminate | repeat split].
Qed.



Lemma approved_inv (s : RiskManager.t) (o : Order.t) :
  fst (St.eval (RiskManager.can_take_trade o) s) = true <->
  ~ daily_loss_hit s /\ ~ portfolio_risk_hit s /\ ~ trade_risk_hit s o
  /\ ~ position_size_hit s o /\ ~ concentration_hit s o.
Proof.
  pose proof (can_take_trade_cases s o) as C. cbv zeta in C.
  destruct C as [(Hd & Hr)
               | [(Hd & Hp & Hr)
               | [(Hd & Hp & Ht & p & _ & Hr)
               | [(Hd & Hp & Ht & Hs & Hr)
               | [(Hd & Hp & Ht & Hs & Hc & Hr)
               | (Hd & Hp & Ht & Hs & Hc & Hr)]]]]];
    rewrite Hr; cbn [fst]; split; try discriminate; try tauto.
Qed.

Lemma approved_message (s : RiskManager.t) (o : Order.t) :
  fst (St.eval (RiskManager.can_take_trade o) s) = true ->
  St.eval (RiskManager.can_take_trade o) s = (true, RiskManager.approved_msg).
Proof.
  pose proof (can_take_trade_cases s o) as C. cbv zeta in C.
  destruct C as [(Hd & Hr)
               | [(Hd & Hp & Hr)
               | [(Hd & Hp & Ht & p & _ & Hr)
               | [(Hd & Hp & Ht & Hs & Hr)
               | [(Hd & Hp & Ht & Hs & Hc & Hr)
               | (Hd & Hp & Ht & Hs & Hc & Hr)]]]]];
    rewrite Hr; cbn [fst]; try discriminate; reflexivity.
Qed.

Lemma order_notional_mono (o o' : Order.t) (p : Decimal) :
  0 <= p -> (Order.quantity o' <= Order.quantity o)%Z ->
  order_notional o' p <= order_notional o p.
Proof.
  intros Hp Hq. unfold order_notional. rewrite Zle_Qle in Hq.
  assert (H : p * inject_Z (Order.quantity o') <= p * inject_Z (Order.quantity o))
    by nra.
  lra.
Qed.

(** X11: Approval is closed under shrinking the order: when [can_take_trade]
    approves an order whose limit price, if any, is not negative, it also
    approves any order on the same underlying at the same limit price with a
    quantity that is not larger. *)
Theorem smaller_order_is_approved (s : RiskManager.t) (o o' : Order.t) :
  fst (St.eval (RiskManager.can_take_trade o) s) = true ->
  Order.limit_price o' = Order.limit_price o ->
  OptionContract.underlying (Order.contract o')
  = OptionContract.underlying (Order.contract o) ->
  (forall p, Order.limit_price o = Some p -> 0 <= p) ->
  (Order.quantity o' <= Order.quantity o)%Z ->
  St.eval (RiskManager.can_take_trade o') s = (true, RiskManager.approved_msg).
Proof.
  intros Happ Hprice Hund Hnonneg Hq.
  apply approved_message. apply approved_inv.
  apply approved_inv in Happ. destruct Happ as (Hd & Hp & Ht & Hs & Hc).
  repeat split; try assumption.
  - intros (p & Hp' & Hlt). apply Ht. rewrite Hprice in Hp'.
    exists p. split; [exact Hp'|].
    pose proof (order_notional_mono o o' p (Hnonneg p Hp') Hq). lra.
  - unfold position_size_hit in *. lia.
  - intros (p & Hp' & Hlt). apply Hc. rewrite Hprice in Hp'.
    exists p. split; [exact Hp'|]. rewrite Hund in Hlt.
    pose proof (order_notional_mono o o' p (Hnonneg p Hp') Hq). lra.
Qed.

Lemma smaller_order_is_approved_witness :
  St.eval (RiskManager.can_take_trade (Sample.order "limit" 1 (Some (255 # 100))))
    (RiskManager.init 100000 None)
  = (true, RiskManager.approved_msg).
Proof.
  apply (smaller_order_is_approved (RiskManager.init 100000 None)
           (Sample.order "limit" 2 (Some (255 # 100)))
           (Sample.order "limit" 1 (Some (255 # 100)))
           eq_refl eq_refl eq_refl).
  - intros p [= <-]. discriminate.
  - discriminate.
Defined.

Lemma short_keeps_risk_pct (av : Decimal) (lim : RiskLimits.t) (pnl : Decimal)
    (l : list Position.t) (p : Position.t) :
  Position.side p = SELL ->
  St.eval RiskManager.portfolio_risk_pct (RiskManager.mk av lim pnl (l ++ [p]))
  = St.eval RiskManager.portfolio_risk_pct (RiskManager.mk av lim pnl l).
Proof.
  intro Hside.
  unfold St.eval, RiskManager.portfolio_risk_pct, RiskManager.portfolio_risk,
    St.bind, St.gets, St.ret.
  cbn [fst snd RiskManager.open_positions RiskManager.account_value].
  destruct (Qle_bool av 0); cbn [fst snd]; [reflexivity|].
  cbn [RiskManager.open_positions].
  rewrite fold_left_app. cbn [fold_left].
  unfold Position.is_long at 1. rewrite Hside. reflexivity.
Qed.

(** X12: A short position on another underlying is invisible to the check: after
    [add_position] of such a position, [can_take_trade] answers every order
    exactly as before. *)
Theorem unrelated_short_is_invisible
    (s : RiskManager.t) (p : Position.t) (o : Order.t) :
  Position.side p = SELL ->
  OptionContract.underlying (Position.contract p)
  <> OptionContract.underlying (Order.contract o) ->
  St.eval (RiskManager.can_take_trade o) (St.exec (RiskManager.add_position p) s)
  = St.eval (RiskManager.can_take_trade o) s.
Proof.
  intros Hside Hund. apply String.eqb_neq in Hund.
  destruct s as [av lim pnl l].
  unfold St.exec, RiskManager.add_position, St.modify. cbn [snd].
  cbn [RiskManager.open_positions RiskManager.account_value
         RiskManager.limits RiskManager.daily_pnl].
  run_manager.
  cbn [RiskManager.open_positions RiskManager.account_value
         RiskManager.limits RiskManager.daily_pnl].
  destruct (Qlt_bool pnl _); cbn [fst snd]; [reflexivity|].
  rewrite !portfolio_risk_pct_run. cbn [fst snd].
  rewrite (short_keeps_risk_pct av lim pnl l p Hside).
  destruct (Qle_bool _ _); cbn [fst snd]; [reflexivity|].
  destruct (Order.limit_price o) as [lp|]; cbn [fst snd].
  - destruct (Qlt_bool _ _); cbn [fst snd]; [reflexivity|].
    destruct (_ <? _)%Z; cbn [fst snd]; [reflexivity|].
    cbn [RiskManager.open_positions].
    rewrite filter_app. cbn [filter]. rewrite Hund, app_nil_r.
    destruct (Qlt_bool _ _); reflexivity.
  - destruct (_ <? _)%Z; reflexivity.
Qed.

Lemma unrelated_short_is_invisible_witness :
  St.eval (RiskManager.can_take_trade
             (Order.mk
                (OptionContract.mk "QQQ231222C00400000" "QQQ" CALL 400 738876%Z
                   None None None 0 0 None None None None None)
                BUY 1 "market" None "day" None "new" 0 None Sample.noon))
    (St.exec (RiskManager.add_position Scenario.short_spy)
       (RiskManager.init 100000 None))
  = (true, RiskManager.approved_msg).
Proof.
  rewrite (unrelated_short_is_invisible (RiskManager.init 100000 None)
             Scenario.short_spy _ eq_refl); [reflexivity|].
  discriminate.
Defined.




(** ** The strategy family *)

Lemma long_call_shape (self : LongCallStrategy.t) (clock : Clock)
    (price : Decimal) (chain : list OptionContract.t)
    (current_time : option datetime) (sig : StrategySignal.t) :
  LongCallStrategy.generate_signal self clock price chain current_time
  = Returned (Some sig) ->
  in_hours (LongCallStrategy.base self) clock current_time
  /\ exists c,
       select_by_delta (LongCallStrategy.target_delta self) price
         (filter (fun c => OptionType_eqb (OptionContract.option_type c) CALL) chain)
       = Some c
       /\ sig = StrategySignal.mk LONG_CALL [c] [BUY] [1%Z] (7 # 10)
                  [Lit "Long call on "; FmtStr (OptionContract.underlying c);
                   Lit " @ "; FmtDecimal (OptionContract.strike c)]
                  (BaseStrategy.or_now current_time (clock 1%nat)).
Proof.
  unfold LongCallStrategy.generate_signal, in_hours.
  destruct (BaseStrategy.is_within_trading_hours _ _ _); cbn [negb]; [|discriminate].
  destruct (filter _ chain) as [|c0 calls]; [discriminate|].
  destruct (select_by_delta _ _ _) as [c|]; [|discriminate].
  intro H. split; [reflexivity|]. exists c. split; [reflexivity|].
  destruct (OptionContract.mid_price c) as [m|].
  - destruct (Decimal_truthy m).
    + destruct (Qeq_bool price 0); [discriminate|].
      destruct (Qlt_bool _ _); [discriminate|]. now injection H as <-.
    + now injection H as <-.
  - now injection H as <-.
Qed.

Lemma long_put_shape (self : LongPutStrategy.t) (clock : Clock)
    (price : Decimal) (chain : list OptionContract.t)
    (current_time : option datetime) (sig : StrategySignal.t) :
  LongPutStrategy.generate_signal self clock price chain current_time
  = Returned (Some sig) ->
  in_hours (LongPutStrategy.base self) clock current_time
  /\ exists c,
       select_by_delta (LongPutStrategy.target_delta self) price
         (filter (fun c => OptionType_eqb (OptionContract.option_type c) PUT) chain)
       = Some c
       /\ sig = StrategySignal.mk LONG_PUT [c] [BUY] [1%Z] (7 # 10)
                  [Lit "Long put on "; FmtStr (OptionContract.underlying c);
                   Lit " @ "; FmtDecimal (OptionContract.strike c)]
                  (BaseStrategy.or_now current_time (clock 1%nat)).
Proof.
  unfold LongPutStrategy.generate_signal, in_hours.
  destruct (BaseStrategy.is_within_trading_hours _ _ _); cbn [negb]; [|discriminate].
  destruct (filter _ chain) as [|c0 puts]; [discriminate|].
  destruct (select_by_delta _ _ _) as [c|]; [|discriminate].
  intros [= <-]. split; [reflexivity|]. exists c. now split.
Qed.

Lemma straddle_shape (self : StraddleStrategy.t)
    (set_iter : list Decimal -> list Decimal) (clock : Clock)
    (price : Decimal) (chain : list OptionContract.t)
    (current_time : option datetime) (sig : StrategySignal.t) :
  StraddleStrategy.generate_signal self set_iter clock price chain current_time
  = Returned (Some sig) ->
  in_hours (StraddleStrategy.base self) clock current_time
  /\ exists atm call put,
       StraddleStrategy.find_atm_strike set_iter chain price = Some atm
       /\ leg_at CALL atm chain call /\ leg_at PUT atm chain put
       /\ sig = StrategySignal.mk STRADDLE [call; put] [BUY; BUY] [1%Z; 1%Z]
                  (65 # 100)
                  [Lit "Straddle on "; FmtStr (OptionContract.underlying call);
                   Lit " @ "; FmtDecimal atm]
                  (BaseStrategy.or_now current_time (clock 1%nat)).
Proof.
  unfold StraddleStrategy.generate_signal, in_hours.
  destruct (BaseStrategy.is_within_trading_hours _ _ _); cbn [negb]; [|discriminate].
  destruct (StraddleStrategy.find_atm_strike set_iter chain price) as [atm|];
    [|discriminate].
  destruct (find_legs_call atm chain) as [Hc _].
  destruct (find_legs_put atm chain) as [Hp _].
  destruct (StraddleStrategy.find_legs atm chain) as [[call|] [put|]];
    try discriminate.
  intros [= <-]. split; [reflexivity|]. exists atm, call, put.
  split; [reflexivity|].
  split; [now apply Hc|]. split; [now apply Hp | reflexivity].
Qed.

Lemma strangle_shape (self : StrangleStrategy.t) (clock : Clock)
    (price : Decimal) (chain : list OptionContract.t)
    (current_time : option datetime) (sig : StrategySignal.t) :
  StrangleStrategy.generate_signal self clock price chain current_time
  = Returned (Some sig) ->
  in_hours (StrangleStrategy.base self) clock current_time
  /\ exists call put,
       otm_call price chain call /\ otm_put price chain put
       /\ sig = StrategySignal.mk STRANGLE [call; put] [BUY; BUY] [1%Z; 1%Z]
                  (6 # 10)
                  [Lit "Strangle: call@"; FmtDecimal (OptionContract.strike call);
                   Lit ", put@"; FmtDecimal (OptionContract.strike put)]
                  (BaseStrategy.or_now current_time (clock 1%nat)).
Proof.
  unfold StrangleStrategy.generate_signal, in_hours.
  destruct (BaseStrategy.is_within_trading_hours _ _ _); cbn [negb]; [|discriminate].
  pose proof (otm_calls_In price chain) as HC.
  pose proof (otm_puts_In price chain) as HP.
  destruct (filter (fun c => OptionType_eqb (OptionContract.option_type c) CALL)
              chain) as [|c1 calls]; [discriminate|].
  destruct (filter (fun c => OptionType_eqb (OptionContract.option_type c) PUT)
              chain) as [|p1 puts]; [discriminate|].
  destruct (filter (fun c => Qlt_bool price (OptionContract.strike c)) (c1 :: calls))
    as [|c0 cs]; [discriminate|].
  destruct (filter (fun c => Qlt_bool (OptionContract.strike c) price) (p1 :: puts))
    as [|p0 ps]; [discriminate|].
  intros [= <-]. split; [reflexivity|].
  exists (min_from OptionContract.strike c0 cs),
    (max_from OptionContract.strike p0 ps).
  split; [apply HC, min_from_In|]. split; [apply HP, max_from_In | reflexivity].
Qed.

Lemma signal_legs (strategy : Strategy.t) (set_iter : list Decimal -> list Decimal)
    (clock : Clock) (price : Decimal) (chain : list OptionContract.t)
    (current_time : option datetime) (sig : StrategySignal.t) :
  Strategy.generate_signal strategy set_iter clock price chain current_time
  = Returned (Some sig) ->
  in_hours (Strategy.base strategy) clock current_time
  /\ legs_of_kind strategy chain sig
  /\ StrategySignal.confidence sig = confidence_of strategy
  /\ StrategySignal.strategy_type sig = Strategy.strategy_type strategy.
Proof.
  destruct strategy as [self|self|self|self]; cbn [Strategy.generate_signal
    Strategy.base legs_of_kind confidence_of Strategy.strategy_type]; intro H.
  - apply long_call_shape in H. destruct H as (Hin & c & Hsel & ->).
    apply select_by_delta_In, filter_In in Hsel. destruct Hsel as [Hc Hk].
    apply OptionType_eqb_eq in Hk.
    split; [exact Hin|]. split; [|split; reflexivity].
    exists c. repeat split; assumption.
  - apply long_put_shape in H. destruct H as (Hin & c & Hsel & ->).
    apply select_by_delta_In, filter_In in Hsel. destruct Hsel as [Hc Hk].
    apply OptionType_eqb_eq in Hk.
    split; [exact Hin|]. split; [|split; reflexivity].
    exists c. repeat split; assumption.
  - apply straddle_shape in H.
    destruct H as (Hin & atm & call & put & _ & (Hc & Hck & _) & (Hp & Hpk & _) & ->).
    split; [exact Hin|]. split; [|split; reflexivity].
    exists call, put. repeat split; assumption.
  - apply strangle_shape in H.
    destruct H as (Hin & call & put & (Hc & Hck & _) & (Hp & Hpk & _) & ->).
    split; [exact Hin|]. split; [|split; reflexivity].
    exists call, put. repeat split; assumption.
Qed.

(** X14: Past the cutoff nothing is proposed: a strategy that respects the
    cutoff returns no signal, and raises nothing, whenever the time of day
    it checks (the one supplied, or else the clock's) is not before 15:15,
    whatever the chain and the underlying price. *)
Theorem past_cutoff_no_signal
    (strategy : Strategy.t) (set_iter : list Decimal -> list Decimal)
    (clock : Clock) (price : Decimal) (chain : list OptionContract.t)
    (current_time : option datetime) :
  BaseStrategy.respect_cutoff (Strategy.base strategy) = true ->
  time_ltb (dt_time (BaseStrategy.or_now current_time (clock 0%nat)))
    ALPACA_0DTE_CUTOFF = false ->
  Strategy.generate_signal strategy set_iter clock price chain current_time
  = Returned None.
Proof.
  intros Hresp Hlate.
  assert (Hgate : BaseStrategy.is_within_trading_hours (Strategy.base strategy)
                    current_time (clock 0%nat) = false).
  { unfold BaseStrategy.is_within_trading_hours. now rewrite Hresp. }
  destruct strategy as [self|self|self|self];
    cbn [Strategy.generate_signal Strategy.base] in *;
    [unfold LongCallStrategy.generate_signal
    |unfold LongPutStrategy.generate_signal
    |unfold StraddleStrategy.generate_signal
    |unfold StrangleStrategy.generate_signal];
    now rewrite Hgate.
Qed.

Lemma past_cutoff_no_signal_witness :
  Strategy.generate_signal (Strategy.Straddle StraddleStrategy.default)
    insertion_order Sample.clock 473 Chain.straddle_chain
    (Some (mk_datetime 738876%Z (mk_time 15 15 0 0)))
  = Returned None.
Proof.
  apply (past_cutoff_no_signal (Strategy.Straddle StraddleStrategy.default)
           insertion_order Sample.clock 473 Chain.straddle_chain
           (Some (mk_datetime 738876%Z (mk_time 15 15 0 0))) eq_refl eq_refl).
Defined.

Lemma new_order_valid_iff (c : OptionContract.t) (side : OrderSide) (q : Z)
    (now : datetime) :
  Order.validate (Order.new c side q (OptionContract.mid_price c) now) = true
  <-> (0 < q)%Z /\ exists m, OptionContract.mid_price c = Some m /\ 0 < m.
Proof.
  unfold Order.validate, Order.new.
  cbn [Order.quantity Order.order_type Order.limit_price].
  destruct (Z.leb_spec q 0) as [Hq|Hq].
  - split; [discriminate | intros [H _]; lia].
  - destruct (OptionContract.mid_price c) as [m|]; cbn.
    + destruct (Qle_bool_spec m 0) as [Hm|Hm].
      * split; [discriminate|]. intros (_ & m' & [= <-] & H). lra.
      * split; [|reflexivity]. intros _. split; [exact Hq|].
        exists m. split; [reflexivity | lra].
    + split; [discriminate|]. intros (_ & m & [=] & _).
Qed.

(** X15: Every signal that a strategy emits is well formed: it passes
    [StrategySignal.validate], so [create_orders] raises nothing on it and
    returns one buy order per leg, for min(1, max_position_size) contracts
    at the leg's mid price.  Such an order passes [Order.validate] exactly
    when max_position_size is at least 1 and the leg has a positive mid
    price. *)
Theorem strategy_signal_materializes
    (strategy : Strategy.t) (set_iter : list Decimal -> list Decimal)
    (clock order_clock : Clock) (price : Decimal)
    (chain : list OptionContract.t) (current_time : option datetime)
    (sig : StrategySignal.t) :
  Strategy.generate_signal strategy set_iter clock price chain current_time
  = Returned (Some sig) ->
  StrategySignal.validate sig = true
  /\ structurally_valid sig
  /\ exists orders,
       Strategy.create_orders strategy order_clock sig = Returned orders
       /\ map Order.contract orders = StrategySignal.contracts sig
       /\ Forall
            (fun o =>
               Order.side o = BUY
               /\ Order.quantity o
                  = Z.min 1 (BaseStrategy.max_position_size (Strategy.base strategy))
               /\ Order.limit_price o = OptionContract.mid_price (Order.contract o)
               /\ (Order.validate o = true
                   <-> (1 <= BaseStrategy.max_position_size (Strategy.base strategy))%Z
                       /\ exists m,
                            OptionContract.mid_price (Order.contract o) = Some m
                            /\ 0 < m))
            orders.
Proof.
  intro H. apply signal_legs in H. destruct H as (_ & Hlegs & Hconf & _).
  set (mp := BaseStrategy.max_position_size (Strategy.base strategy)).
  assert (Hone : forall c now,
            (fun o =>
               Order.side o = BUY
               /\ Order.quantity o = Z.min 1 mp
               /\ Order.limit_price o = OptionContract.mid_price (Order.contract o)
               /\ (Order.validate o = true
                   <-> (1 <= mp)%Z
                       /\ exists m,
                            OptionContract.mid_price (Order.contract o) = Some m
                            /\ 0 < m))
              (Order.new c BUY (Z.min 1 mp) (OptionContract.mid_price c) now)).
  { intros c now. split; [reflexivity|]. split; [reflexivity|].
    split; [reflexivity|]. rewrite new_order_valid_iff.
    cbn [Order.contract Order.new]. split; intros [Hq Hm]; (split; [lia | exact Hm]). }
  assert (Hshape :
            (exists c, StrategySignal.contracts sig = [c]
                       /\ StrategySignal.sides sig = [BUY]
                       /\ StrategySignal.quantities sig = [1%Z])
            \/ (exists c1 c2, StrategySignal.contracts sig = [c1; c2]
                              /\ StrategySignal.sides sig = [BUY; BUY]
                              /\ StrategySignal.quantities sig = [1%Z; 1%Z])).
  { destruct strategy; cbn [legs_of_kind] in Hlegs.
    - destruct Hlegs as (c & (H1 & H2 & H3) & _). left. now exists c.
    - destruct Hlegs as (c & (H1 & H2 & H3) & _). left. now exists c.
    - destruct Hlegs as (c1 & c2 & H1 & H2 & H3 & _). right. now exists c1, c2.
    - destruct Hlegs as (c1 & c2 & H1 & H2 & H3 & _). right. now exists c1, c2. }
  assert (Hrange : Qle_bool 0 (StrategySignal.confidence sig)
                   && Qle_bool (StrategySignal.confidence sig) 1 = true).
  { rewrite Hconf. destruct strategy; reflexivity. }
  assert (Hrange' : 0 <= StrategySignal.confidence sig <= 1).
  { apply andb_true_iff in Hrange. destruct Hrange as [H1 H2].
    split; now apply Qle_bool_iff. }
  unfold Strategy.create_orders, BaseStrategy.create_orders,
    StrategySignal.validate, structurally_valid.
  fold mp.
  destruct Hshape as [(c & Hc & Hs & Hq) | (c1 & c2 & Hc & Hs & Hq)];
    rewrite Hc, Hs, Hq, Hrange; cbn [List.length Nat.eqb negb andb zip3
                                       BaseStrategy.build_orders].
  - split; [reflexivity|]. split; [repeat split; try discriminate; apply Hrange'|].
    eexists. split; [reflexivity|]. split; [reflexivity|].
    constructor; [apply Hone | constructor].
  - split; [reflexivity|]. split; [repeat split; try discriminate; apply Hrange'|].
    eexists. split; [reflexivity|]. split; [reflexivity|].
    constructor; [apply Hone|]. constructor; [apply Hone | constructor].
Qed.

Lemma strategy_signal_materializes_witness :
  exists sig orders,
    Strategy.generate_signal (Strategy.Strangle StrangleStrategy.default)
      insertion_order Sample.clock 475 Chain.strangle_chain None
    = Returned (Some sig)
    /\ Strategy.create_orders (Strategy.Strangle StrangleStrategy.default)
         Sample.clock sig = Returned orders
    /\ map Order.contract orders = [Chain.call 480; Chain.put 470].
Proof.
  eexists.
  destruct (strategy_signal_materializes
              (Strategy.Strangle StrangleStrategy.default) insertion_order
              Sample.clock Sample.clock 475 Chain.strangle_chain None _ eq_refl)
    as (_ & _ & orders & Hrun & Hmap & _).
  exists orders. split; [reflexivity|]. split; [exact Hrun | exact Hmap].
Defined.

(** X16: Strategies do not invent contracts.  Run on the chain that
    [filter_0dte_contracts] keeps, a strategy only ever emits legs that are
    contracts of the original chain expiring on the reference date, of the
    kinds it trades: a call, a put, or a call then a put. *)
Theorem zero_dte_legs_come_from_chain
    (strategy : Strategy.t) (set_iter : list Decimal -> list Decimal)
    (clock : Clock) (price : Decimal) (chain : list OptionContract.t)
    (check_date : date) (current_time : option datetime)
    (sig : StrategySignal.t) :
  Strategy.generate_signal strategy set_iter clock price
    (BaseStrategy.filter_0dte_contracts chain check_date) current_time
  = Returned (Some sig) ->
  legs_of_kind strategy chain sig
  /\ Forall (fun c => In c chain /\ OptionContract.expiration c = check_date)
            (StrategySignal.contracts sig).
Proof.
  intro H. apply signal_legs in H. destruct H as (_ & Hlegs & _).
  assert (Hf : forall c, In c (BaseStrategy.filter_0dte_contracts chain check_date) ->
                         In c chain /\ OptionContract.expiration c = check_date).
  { intros c Hc. apply filter_In in Hc. destruct Hc as [Hin Hd].
    split; [exact Hin|]. now apply Z.eqb_eq. }
  destruct strategy; cbn [legs_of_kind] in *.
  - destruct Hlegs as (c & (H1 & H2 & H3) & Hin & Hk). apply Hf in Hin. split.
    + exists c. repeat split; try assumption. apply Hin.
    + rewrite H1. constructor; [exact Hin | constructor].
  - destruct Hlegs as (c & (H1 & H2 & H3) & Hin & Hk). apply Hf in Hin. split.
    + exists c. repeat split; try assumption. apply Hin.
    + rewrite H1. constructor; [exact Hin | constructor].
  - destruct Hlegs as (c1 & c2 & H1 & H2 & H3 & Hi1 & Hk1 & Hi2 & Hk2).
    apply Hf in Hi1, Hi2. split.
    + exists c1, c2. repeat split; try assumption; [apply Hi1 | apply Hi2].
    + rewrite H1. constructor; [exact Hi1|]. constructor; [exact Hi2 | constructor].
  - destruct Hlegs as (c1 & c2 & H1 & H2 & H3 & Hi1 & Hk1 & Hi2 & Hk2).
    apply Hf in Hi1, Hi2. split.
    + exists c1, c2. repeat split; try assumption; [apply Hi1 | apply Hi2].
    + rewrite H1. constructor; [exact Hi1|]. constructor; [exact Hi2 | constructor].
Qed.

Lemma zero_dte_legs_come_from_chain_witness :
  exists sig,
    Strategy.generate_signal (Strategy.LongPut LongPutStrategy.default)
      insertion_order Sample.clock 475
      (BaseStrategy.filter_0dte_contracts
         [Sample.sample_call_contract; Sample.sample_put_contract] 738876%Z)
      None = Returned (Some sig)
    /\ Forall (fun c => In c [Sample.sample_call_contract; Sample.sample_put_contract]
                        /\ OptionContract.expiration c = 738876%Z)
              (StrategySignal.contracts sig).
Proof.
  eexists. split; [reflexivity|].
  apply (zero_dte_legs_come_from_chain (Strategy.LongPut LongPutStrategy.default)
           insertion_order Sample.clock 475
           [Sample.sample_call_contract; Sample.sample_put_contract] 738876%Z
           None _ eq_refl).
Defined.

(** ** Selection by delta *)











(** ** Exceptions of the strategies *)



(** ** Order materialization on every accepted signal *)

Lemma zip3_length_min {A B C : Type} (a : list A) (b : list B) (c : list C) :
  List.length (zip3 a b c)
  = Nat.min (List.length a) (Nat.min (List.length b) (List.length c)).
Proof.
  revert b c. induction a as [|x a IH]; intros [|y b] [|z c]; simpl;
    try reflexivity.
  f_equal. apply IH.
Qed.

Lemma zip3_nth_error_inv {A B C : Type} (a : list A) (b : list B) (c : list C)
    (i : nat) (x : A) (y : B) (z : C) :
  nth_error (zip3 a b c) i = Some (x, y, z) ->
  nth_error a i = Some x /\ nth_error b i = Some y /\ nth_error c i = Some z.
Proof.
  revert b c i. induction a as [|x0 a IH]; intros [|y0 b] [|z0 c] i; simpl;
    try (destruct i; discriminate).
  destruct i as [|i]; simpl.
  - intros [= -> -> ->]. auto.
  - apply IH.
Qed.

Lemma build_orders_nth_error_inv (self : BaseStrategy.t) (clock : Clock) (n : nat)
    (legs : list (OptionContract.t * OrderSide * Z)) (i : nat) (o : Order.t) :
  nth_error (BaseStrategy.build_orders self clock n legs) i = Some o ->
  exists c s q,
    nth_error legs i = Some (c, s, q)
    /\ o = Order.new c s (Z.min q (BaseStrategy.max_position_size self))
             (OptionContract.mid_price c) (clock (n + i)%nat).
Proof.
  revert n i. induction legs as [|[[c0 s0] q0] legs IH]; intros n i; simpl.
  - destruct i; discriminate.
  - destruct i as [|i]; simpl.
    + intros [= <-]. exists c0, s0, q0. now rewrite Nat.add_0_r.
    + intro H. destruct (IH (S n) i H) as (c & s & q & Hn & ->).
      exists c, s, q. split; [exact Hn|]. now rewrite Nat.add_succ_r.
Qed.

(** X19: Whatever signal [create_orders] accepts, it returns as many orders as
    the shortest of the three parallel sequences is long, pairing them
    position by position: the order at position i is for the i-th contract
    and side, at the contract's mid price, and its quantity is the i-th
    requested quantity capped at max_position_size, so no order exceeds
    max_position_size. *)
Theorem create_orders_pairs_and_caps
    (self : BaseStrategy.t) (clock : Clock) (sig : StrategySignal.t)
    (orders : list Order.t) :
  BaseStrategy.create_orders self clock sig = Returned orders ->
  List.length orders
  = Nat.min (List.length (StrategySignal.contracts sig))
      (Nat.min (List.length (StrategySignal.sides sig))
         (List.length (StrategySignal.quantities sig)))
  /\ forall i o,
       nth_error orders i = Some o ->
       (Order.quantity o <= BaseStrategy.max_position_size self)%Z
       /\ exists q,
            nth_error (StrategySignal.contracts sig) i = Some (Order.contract o)
            /\ nth_error (StrategySignal.sides sig) i = Some (Order.side o)
            /\ nth_error (StrategySignal.quantities sig) i = Some q
            /\ Order.quantity o = Z.min q (BaseStrategy.max_position_size self)
            /\ Order.limit_price o = OptionContract.mid_price (Order.contract o)
            /\ Order.created_at o = clock i.
Proof.
  unfold BaseStrategy.create_orders.
  destruct (negb (StrategySignal.validate sig)); [discriminate|].
  intros [= <-]. split.
  - rewrite build_orders_length. apply zip3_length_min.
  - intros i o Ho. apply build_orders_nth_error_inv in Ho.
    destruct Ho as (c & s & q & Hleg & ->).
    apply zip3_nth_error_inv in Hleg. destruct Hleg as (Hc & Hs & Hq).
    cbn [Order.new Order.quantity Order.contract Order.side Order.limit_price
           Order.created_at].
    split; [apply Z.le_min_r|]. exists q. repeat split; assumption.
Qed.

Lemma create_orders_pairs_and_caps_witness :
  exists orders,
    BaseStrategy.create_orders (BaseStrategy.mk 3 (6 # 10) true) Sample.clock
      (StrategySignal.mk LONG_CALL [Sample.sample_call_contract] [BUY] [7%Z]
         (7 # 10) [Lit "Seven"] Sample.noon)
    = Returned orders
    /\ List.length orders = 1%nat
    /\ forall i o, nth_error orders i = Some o -> (Order.quantity o <= 3)%Z.
Proof.
  eexists. split; [reflexivity|].
  destruct (create_orders_pairs_and_caps (BaseStrategy.mk 3 (6 # 10) true)
              Sample.clock
              (StrategySignal.mk LONG_CALL [Sample.sample_call_contract] [BUY]
                 [7%Z] (7 # 10) [Lit "Seven"] Sample.noon)
              _ eq_refl) as [Hlen Hall].
  split; [exact Hlen|]. intros i o Ho. now apply (Hall i o Ho).
Defined.

(** ** Broker *)

(** X20: [submit_order] changes nothing on the broker and returns an order id
    exactly when the broker is connected, the quantity is positive, the side
    is "buy" or "sell" and a limit order carries a limit price.  Every order
    that [Order.validate] accepts is therefore accepted, field by field, by
    a connected broker, while the broker also takes a limit price that is
    not positive, which [Order.validate] refuses. *)
Theorem submit_order_accepts_valid_orders
    (b : AlpacaBroker.t) (now : datetime) (symbol : string) (qty : Z)
    (side order_type : string) (limit_price : option Decimal)
    (time_in_force : string) :
  let submit :=
    AlpacaBroker.submit_order now symbol qty side order_type limit_price
      time_in_force in
  St.exec submit b = b
  /\ (St.eval submit b = Some (AlpacaBroker.OrderAt now)
      \/ St.eval submit b = None)
  /\ (St.eval submit b <> None
      <-> AlpacaBroker.connected b = true
          /\ (0 < qty)%Z
          /\ (side = "buy"%string \/ side = "sell"%string)
          /\ (order_type = "limit"%string -> limit_price <> None))
  /\ (forall o : Order.t,
        AlpacaBroker.connected b = true ->
        Order.validate o = true ->
        St.eval
          (AlpacaBroker.submit_order now (OptionContract.symbol (Order.contract o))
             (Order.quantity o) (OrderSide_value (Order.side o))
             (Order.order_type o) (Order.limit_price o) (Order.time_in_force o))
          b
        = Some (AlpacaBroker.OrderAt now)).
Proof.
  cbv zeta.
  assert (Hrun : forall sym q sd ot lp tif,
            AlpacaBroker.submit_order now sym q sd ot lp tif b
            = (if negb (AlpacaBroker.connected b) then None
               else if String.eqb ot "limit"
                       && match lp with None => true | Some _ => false end
               then None
               else if (q <=? 0)%Z then None
               else if negb (String.eqb sd "buy" || String.eqb sd "sell") then None
               else Some (AlpacaBroker.OrderAt now), b)).
  { intros. unfold AlpacaBroker.submit_order, St.bind, St.gets, St.ret.
    destruct (negb (AlpacaBroker.connected b)); [reflexivity|].
    destruct (_ && _); [reflexivity|].
    destruct (q <=? 0)%Z; [reflexivity|].
    destruct (negb _); reflexivity. }
  unfold St.exec, St.eval. rewrite Hrun. cbn [fst snd].
  split; [reflexivity|]. split; [|split].
  - destruct (negb (AlpacaBroker.connected b)); [now right|].
    destruct (_ && _); [now right|].
    destruct (qty <=? 0)%Z; [now right|].
    destruct (negb _); [now right | now left].
  - destruct (AlpacaBroker.connected b); cbn [negb].
    2: { split; [intro H; now elim H | intros [H _]; discriminate]. }
    destruct (String.eqb_spec order_type "limit") as [Hk|Hk];
      destruct limit_price as [lp|]; cbn [andb];
      destruct (Z.leb_spec qty 0) as [Hq|Hq];
      destruct (String.eqb_spec side "buy") as [Hb|Hb];
      destruct (String.eqb_spec side "sell") as [Hs|Hs]; cbn [orb negb];
      split; try (intro H; now elim H);
      try (intros (_ & H1 & H2 & H3); first [lia | tauto | now elim (H3 Hk)]);
      intros _; repeat split; try lia; try tauto; try discriminate.
  - intros o Hconn Hval. rewrite Hrun. cbn [fst]. rewrite Hconn. cbn [negb].
    unfold Order.validate in Hval.
    destruct (Order.quantity o <=? 0)%Z; [discriminate|].
    destruct (_ && _); [discriminate|].
    destruct (Order.side o); reflexivity.
Qed.

Lemma submit_order_accepts_valid_orders_witness :
  St.eval
    (AlpacaBroker.submit_order Sample.noon "SPY231222C00475000" 2 "buy" "limit"
       (Some (255 # 100)) "day")
    (AlpacaBroker.mk None true None)
  = Some (AlpacaBroker.OrderAt Sample.noon).
Proof.
  apply (proj2 (proj2 (proj2
           (submit_order_accepts_valid_orders (AlpacaBroker.mk None true None)
              Sample.noon "" 1 "" "" None "")))
           (Sample.order "limit" 2 (Some (255 # 100))) eq_refl eq_refl).
Defined.

Lemma int_of_Decimal_micro (z : Z) :
  int_of_Decimal (inject_Z z / 1000000) = Z.quot z 1000000.
Proof.
  unfold int_of_Decimal, Qdiv, Qmult, Qinv, inject_Z. cbn [Qnum Qden].
  now rewrite Z.mul_1_r.
Qed.

Lemma before_cutoff_numeric (t : time) :
  valid_time t = true ->
  time_ltb t Broker.ALPACA_0DTE_CUTOFF = true ->
  (0 <= microseconds_of_day t < 54900000000)%Z.
Proof.
  unfold valid_time, time_ltb, microseconds_of_day, Broker.ALPACA_0DTE_CUTOFF.
  cbn [hour minute second microsecond].
  rewrite !andb_true_iff, !Nat.ltb_lt, Z.ltb_lt.
  intros [[[Hh Hm] Hs] Hu].
  destruct (Nat.compare_spec (hour t) 15) as [Eh|Lh|Gh]; [|lia|discriminate].
  destruct (Nat.compare_spec (minute t) 15) as [Em|Lm|Gm]; [|lia|discriminate].
  destruct (Nat.compare_spec (second t) 0) as [Es|Ls|Gs]; [|lia|discriminate].
  rewrite Nat.ltb_lt. lia.
Qed.

(** X21: The broker's countdown agrees with its gate and with the strategies'.
    For a well-formed time of day, [get_time_to_cutoff] answers None exactly
    when [can_trade_0dte] is false; otherwise it answers the whole seconds
    left until 15:15, a number from 0 to 54900.  And [can_trade_0dte] is the
    very test that a strategy respecting the cutoff applies to the clock. *)
Theorem time_to_cutoff_consistent (now : datetime) :
  valid_time (dt_time now) = true ->
  (AlpacaBroker.get_time_to_cutoff now = None
   <-> AlpacaBroker.can_trade_0dte now = false)
  /\ (forall n, AlpacaBroker.get_time_to_cutoff now = Some n ->
      (0 <= n <= 54900)%Z
      /\ (n * 1000000
          <= 54900000000 - microseconds_of_day (dt_time now)
          < (n + 1) * 1000000)%Z)
  /\ (forall base,
        BaseStrategy.respect_cutoff base = true ->
        BaseStrategy.is_within_trading_hours base None now
        = AlpacaBroker.can_trade_0dte now).
Proof.
  intro Hvalid.
  unfold AlpacaBroker.get_time_to_cutoff, AlpacaBroker.can_trade_0dte.
  split; [|split].
  - destruct (time_ltb (dt_time now) Broker.ALPACA_0DTE_CUTOFF); cbn [negb];
      split; congruence.
  - intro n.
    destruct (time_ltb (dt_time now) Broker.ALPACA_0DTE_CUTOFF) eqn:E;
      cbn [negb]; [|discriminate].
    pose proof (before_cutoff_numeric _ Hvalid E) as Hus.
    rewrite int_of_Decimal_micro.
    change (microseconds_of_day Broker.ALPACA_0DTE_CUTOFF) with 54900000000%Z.
    set (delta := (54900000000 - microseconds_of_day (dt_time now))%Z) in *.
    assert (Hd : (0 < delta <= 54900000000)%Z) by (subst delta; lia).
    rewrite Z.quot_div_nonneg by lia.
    intro Hn.
    apply (f_equal (fun o => match o with Some x => x | None => 0%Z end)) in Hn.
    cbv beta iota in Hn. subst n.
    pose proof (Z.div_mod delta 1000000 ltac:(lia)) as Hdm.
    pose proof (Z.mod_pos_bound delta 1000000 ltac:(lia)) as Hmod.
    split; [|lia].
    split; [apply Z.div_pos; lia|].
    apply Z.div_le_upper_bound; lia.
  - intros base Hresp. unfold BaseStrategy.is_within_trading_hours.
    now rewrite Hresp.
Qed.

Lemma time_to_cutoff_consistent_witness :
  valid_time (dt_time Sample.noon) = true
  /\ AlpacaBroker.get_time_to_cutoff Sample.noon = Some 11700%Z
  /\ (0 <= 11700 <= 54900)%Z.
Proof.
  split; [reflexivity|]. split; [reflexivity|].
  apply (proj1 (proj2 (time_to_cutoff_consistent Sample.noon eq_refl))
           11700%Z eq_refl).
Defined.

(** X22: A broker session.  [connect] succeeds exactly when the broker has a
    configuration or the environment supplies a non-empty API key and
    secret; a failed [connect] leaves the broker as it was.  Once connected,
    [get_account] returns an account, caches it, and returns the same
    account again without further change.  [disconnect] drops the
    connection and the cached account, after which [get_account] answers
    None. *)
Theorem broker_session (b : AlpacaBroker.t) (environ : Environ) :
  let ok := St.eval (AlpacaBroker.connect environ) b in
  let b1 := St.exec (AlpacaBroker.connect environ) b in
  let b2 := St.exec AlpacaBroker.get_account b1 in
  let b3 := St.exec AlpacaBroker.disconnect b2 in
  (ok = true
   <-> AlpacaBroker.config b <> None
       \/ (environ_get environ "ALPACA_API_KEY" "" <> ""%string
           /\ environ_get environ "ALPACA_API_SECRET" "" <> ""%string))
  /\ (ok = false -> b1 = b)
  /\ (ok = true ->
      AlpacaBroker.connected b1 = true
      /\ AlpacaBroker.config b1 <> None
      /\ AlpacaBroker.account b1 = AlpacaBroker.account b
      /\ exists a,
           St.eval AlpacaBroker.get_account b1 = Some a
           /\ AlpacaBroker.account b2 = Some a
           /\ St.eval AlpacaBroker.get_account b2 = Some a
           /\ St.exec AlpacaBroker.get_account b2 = b2
           /\ (AlpacaBroker.account b = None -> a = AlpacaBroker.mock_account))
  /\ AlpacaBroker.connected b3 = false
  /\ AlpacaBroker.account b3 = None
  /\ St.eval AlpacaBroker.get_account b3 = None.
Proof.
  destruct b as [cfg conn acct]. cbv zeta.
  unfold St.eval, St.exec, AlpacaBroker.connect, AlpacaBroker.get_account,
    AlpacaBroker.disconnect, BrokerConfig.from_env, St.bind, St.gets, St.ret,
    St.modify.
  cbn [fst snd AlpacaBroker.config AlpacaBroker.connected AlpacaBroker.account].
  destruct cfg as [c|].
  - cbn [fst snd AlpacaBroker.config AlpacaBroker.connected AlpacaBroker.account negb].
    split; [split; [intros _; left; discriminate | reflexivity]|].
    split; [discriminate|]. split.
    + intros _. split; [reflexivity|]. split; [discriminate|].
      split; [reflexivity|].
      destruct acct as [a|]; cbn [fst snd AlpacaBroker.account AlpacaBroker.connected negb].
      * exists a. repeat split. discriminate.
      * exists AlpacaBroker.mock_account. repeat split.
    + destruct acct; repeat split.
  - destruct (String.eqb_spec (environ_get environ "ALPACA_API_KEY" "") "") as [Ek|Ek];
      destruct (String.eqb_spec (environ_get environ "ALPACA_API_SECRET" "") "")
        as [Es|Es];
      cbn [orb fst snd AlpacaBroker.config AlpacaBroker.connected
             AlpacaBroker.account negb].
    1-3: (split; [split; [discriminate | intros [H|[H1 H2]]; [now elim H | contradiction]]|];
          split; [reflexivity|]; split; [discriminate|];
          destruct conn; cbn [negb fst snd AlpacaBroker.account AlpacaBroker.connected];
          [destruct acct|]; repeat split).
    split; [split; [intros _; right; now split | reflexivity]|].
    split; [discriminate|]. split.
    + intros _. split; [reflexivity|]. split; [discriminate|].
      split; [reflexivity|].
      destruct acct as [a|]; cbn [fst snd AlpacaBroker.account AlpacaBroker.connected negb].
      * exists a. repeat split. discriminate.
      * exists AlpacaBroker.mock_account. repeat split.
    + destruct acct; repeat split.
Qed.

Lemma broker_session_witness :
  let b := AlpacaBroker.init None in
  let environ : Environ :=
    fun key =>
      if String.eqb key "ALPACA_API_KEY" then Some "key"%string
      else if String.eqb key "ALPACA_API_SECRET" then Some "secret"%string
      else None in
  St.eval (AlpacaBroker.connect environ) b = true
  /\ St.eval AlpacaBroker.get_account (St.exec (AlpacaBroker.connect environ) b)
     = Some AlpacaBroker.mock_account
  /\ St.eval (AlpacaBroker.connect (fun _ => None)) b = false.
Proof.
  cbv zeta. split; [reflexivity|]. split; [reflexivity|].
  destruct (St.eval (AlpacaBroker.connect (fun _ => None)) (AlpacaBroker.init None))
    eqn:E; [|reflexivity].
  apply (proj1 (broker_session (AlpacaBroker.init None) (fun _ => None))) in E.
  destruct E as [E|[E _]]; now elim E.
Defined.

(** ** Risk summary *)

